(** * Duplicate / Rename / Template: a shallow embedding of [script.py]

    The script is one procedure, [main], run inside a host application.
    It asks for a selection of views and for a discipline, then, inside
    one transaction, duplicates every selected 3D view, renames the copy
    and gives it the discipline's view template.

    The host (document, views, transaction, dialogs) is not part of the
    script.  It is taken here as an interface, [Host]; the script is
    written once over any host, as a computation that threads the
    document, records every call it makes to the host, and may raise.

    What is taken from the host: a call that raises leaves the document
    as it was, and what it raises is an [Exception]; reading a name,
    collecting the views, printing and showing a dialog do not raise;
    [Start] and [Commit] succeed, and [RollBack] puts back the document
    that [Start] saw. *)

From Stdlib Require Import Ascii String DecimalString.
From stdpp Require Import gmap strings list fin_maps.

Local Open Scope Z_scope.

(** ** Python strings *)

Module PyStr.

(** [s.find(c)] for a one-character needle: the lowest index of [c] in
    [s], or [-1]. *)
Fixpoint find (c : ascii) (s : string) : Z :=
  match s with
  | EmptyString => -1
  | String a s' =>
      if Ascii.eqb a c then 0
      else let r := find c s' in
           if r =? -1 then -1 else r + 1
  end.

Fixpoint drop (n : nat) (s : string) : string :=
  match n, s with
  | O, _ => s
  | S _, EmptyString => EmptyString
  | S n', String _ s' => drop n' s'
  end.

(** [s[i:]]: a negative start counts from the end, and the start is
    clamped to the string. *)
Definition slice_from (i : Z) (s : string) : string :=
  let n := Z.of_nat (String.length s) in
  let start := if i <? 0 then Z.max 0 (n + i) else Z.min i n in
  drop (Z.to_nat start) s.

(** ['{}'.format(n)] for a non-negative integer. *)
Definition of_nat (n : nat) : string :=
  NilZero.string_of_uint (Nat.to_uint n).

(** [c in s]. *)
Fixpoint contains (c : ascii) (s : string) : bool :=
  match s with
  | EmptyString => false
  | String a s' => Ascii.eqb a c || contains c s'
  end.

(** ['*' * k] *)
Fixpoint stars (k : nat) : string :=
  match k with
  | O => EmptyString
  | S k' => String "*"%char (stars k')
  end.

(** [repr(s)]: quoted, with the quote, the backslash and what does not
    print escaped; double quotes only when [s] has a single quote and no
    double one. *)
Definition hex_digit (n : nat) : ascii :=
  List.nth n (list_ascii_of_string "0123456789abcdef") "0"%char.

Definition escape (quote c : ascii) : string :=
  let backslash := ascii_of_nat 92 in
  let n := nat_of_ascii c in
  if Ascii.eqb c quote || Ascii.eqb c backslash then String backslash (String c EmptyString)
  else if Nat.eqb n 9 then String backslash "t"
  else if Nat.eqb n 10 then String backslash "n"
  else if Nat.eqb n 13 then String backslash "r"
  else if Nat.ltb n 32 || Nat.leb 127 n
       then String backslash
              (String "x" (String (hex_digit (Nat.div n 16))
                             (String (hex_digit (Nat.modulo n 16)) EmptyString)))
       else String c EmptyString.

Fixpoint escape_all (quote : ascii) (s : string) : string :=
  match s with
  | EmptyString => EmptyString
  | String c s' => escape quote c +:+ escape_all quote s'
  end.

Definition repr (s : string) : string :=
  let double := ascii_of_nat 34 in
  let quote := if contains "'" s && negb (contains double s) then double else "'"%char in
  String quote (escape_all quote s +:+ String quote EmptyString).

End PyStr.

(** ** The naming rule (script.py, lines 77-83) *)

Definition new_name (prefix old_name : string) : string :=
  let underscore_index := PyStr.find "_"%char old_name in
  if negb (underscore_index =? -1)
  then prefix +:+ PyStr.slice_from (underscore_index + 1) old_name
  else prefix +:+ old_name.

(** ** The discipline table (script.py, lines 44-61) *)

Record SystemEntry := { prefix : string; template : string }.

Definition options : list string :=
  ["Architectural"; "Mechanical"; "Plumbing"; "Fire Protection"; "Electrical"].

Definition system_mapping : gmap string SystemEntry :=
  list_to_map
    [ ("Architectural", {| prefix := "A_"; template := "ARCHITECTURE GLUE" |});
      ("Mechanical", {| prefix := "MD_"; template := "MECHANICAL GLUE" |});
      ("Plumbing", {| prefix := "PL_"; template := "PLUMBING GLUE" |});
      ("Fire Protection", {| prefix := "FP_"; template := "FIRE PROTECTION GLUE" |});
      ("Electrical", {| prefix := "EE_"; template := "ELECTRICAL GLUE" |}) ].

(** ** The host interface

    Elements are named by an integer id.  A selected view is a reference
    to an element together with its run-time class, which is all that
    [isinstance(view, View3D)] looks at. *)

Definition ElementId := Z.

Inductive ViewClass := View3D | ViewPlan | ViewSection | ViewSheet | ViewDrafting.

Record ViewObj := { Id : ElementId; Class : ViewClass }.

Definition is_View3D (view : ViewObj) : bool :=
  match Class view with View3D => true | _ => false end.

(** A failing host call raises an exception carrying a message; a call
    that raises leaves the document as it was. *)
Definition ApiError := string.

Class Host := {
  Doc : Type;
  (** [view.Duplicate(ViewDuplicateOption.Duplicate)]: the new view's id. *)
  Duplicate : Doc -> ElementId -> ApiError + (ElementId * Doc);
  (** [element.Name], read and written. *)
  Name : Doc -> ElementId -> string;
  set_Name : Doc -> ElementId -> string -> ApiError + Doc;
  (** [FilteredElementCollector(doc).OfClass(View)], in iteration order. *)
  OfClass_View : Doc -> list ElementId;
  (** [view.ViewTemplateId], read (never by the script) and written. *)
  ViewTemplateId : Doc -> ElementId -> ElementId;
  set_ViewTemplateId : Doc -> ElementId -> ElementId -> ApiError + Doc
}.

(** ** Exceptions, events and the script monad *)

Inductive Exn :=
| SystemExit                      (* [sys.exit()], not an [Exception] *)
| KeyError (key : string)
| ApiException (msg : ApiError).

Definition is_Exception (e : Exn) : bool :=
  match e with SystemExit => false | _ => true end.

(** ['{}'.format(e)] *)
Definition str_of_exn (e : Exn) : string :=
  match e with
  | SystemExit => EmptyString
  | KeyError k => PyStr.repr k
  | ApiException msg => msg
  end.

(** What the script does to the outside, in order. *)
Inductive Event :=
| EvStart
| EvCommit
| EvRollBack
| EvDuplicate (view : ElementId) (res : option ElementId)
| EvSetName (view : ElementId) (name : string) (ok : bool)
| EvSetTemplate (view tmpl : ElementId) (ok : bool)
| EvPrint (line : string)
| EvAlert (msg : string).

Section Script.

Context {H : Host}.

Inductive TxStatus :=
| NotStarted
| Started (saved : Doc)           (* the document when [Start] was called *)
| Committed
| RolledBack.

Record St := { doc : Doc; tx : TxStatus }.

(** A computation runs from a state and gives the events it emitted,
    the state it left, and either an exception or a value. *)
Definition M (A : Type) : Type := St -> list Event * St * (Exn + A).

Definition ret {A} (a : A) : M A := fun s => ([], s, inr a).

Definition bind {A B} (m : M A) (k : A -> M B) : M B :=
  fun s =>
    match m s with
    | (e1, s1, inl x) => (e1, s1, inl x)
    | (e1, s1, inr a) =>
        match k a s1 with
        | (e2, s2, r) => (e1 ++ e2, s2, r)
        end
    end.

Definition raise {A} (x : Exn) : M A := fun s => ([], s, inl x).

(** [try: m  except: h] catches everything. *)
Definition try_except {A} (m : M A) (h : Exn -> M A) : M A :=
  fun s =>
    match m s with
    | (e1, s1, inl x) =>
        match h x s1 with
        | (e2, s2, r) => (e1 ++ e2, s2, r)
        end
    | (e1, s1, inr a) => (e1, s1, inr a)
    end.

(** [try: m  except Exception as e: h e] lets [SystemExit] through. *)
Definition try_except_Exception {A} (m : M A) (h : Exn -> M A) : M A :=
  try_except m (fun x => if is_Exception x then h x else raise x).

Definition emit (e : Event) : M unit := fun s => ([e], s, inr tt).

End Script.

Notation "'let*' x ':=' m 'in' k" := (bind m (fun x => k))
  (at level 10, x name, m at level 100, k at level 200).
Notation "m ';;;' k" := (bind m (fun _ => k))
  (at level 100, k at level 200, right associativity).

Section Script.

Context {H : Host}.

(** *** Console and dialogs *)

Definition print (line : string) : M unit := emit (EvPrint line).

Definition alert (msg : string) : M unit := emit (EvAlert msg).

(** [forms.alert(msg, exitscript=True)] *)
Definition alert_exit {A} (msg : string) : M A :=
  alert msg ;;; raise SystemExit.

(** *** Host calls *)

Definition call_Duplicate (view : ElementId) : M ElementId :=
  fun s =>
    match Duplicate (doc s) view with
    | inl msg => ([EvDuplicate view None], s, inl (ApiException msg))
    | inr (i, d) =>
        ([EvDuplicate view (Some i)], {| doc := d; tx := tx s |}, inr i)
    end.

Definition get_Name (view : ElementId) : M string :=
  fun s => ([], s, inr (Name (doc s) view)).

Definition call_set_Name (view : ElementId) (name : string) : M unit :=
  fun s =>
    match set_Name (doc s) view name with
    | inl msg => ([EvSetName view name false], s, inl (ApiException msg))
    | inr d => ([EvSetName view name true], {| doc := d; tx := tx s |}, inr tt)
    end.

Definition collect_views : M (list ElementId) :=
  fun s => ([], s, inr (OfClass_View (doc s))).

Definition call_set_ViewTemplateId (view tmpl : ElementId) : M unit :=
  fun s =>
    match set_ViewTemplateId (doc s) view tmpl with
    | inl msg => ([EvSetTemplate view tmpl false], s, inl (ApiException msg))
    | inr d => ([EvSetTemplate view tmpl true], {| doc := d; tx := tx s |}, inr tt)
    end.

(** *** The transaction: one snapshot, kept or restored *)

Definition tx_Start : M unit :=
  fun s => ([EvStart], {| doc := doc s; tx := Started (doc s) |}, inr tt).

Definition tx_Commit : M unit :=
  fun s => ([EvCommit], {| doc := doc s; tx := Committed |}, inr tt).

Definition tx_RollBack : M unit :=
  fun s =>
    match tx s with
    | Started saved => ([EvRollBack], {| doc := saved; tx := RolledBack |}, inr tt)
    | _ => ([], s, inl (ApiException "The transaction has not been started"))
    end.

(** *** The loop body, block by block *)

(** Lines 86-92: [for i in range(20)] with its [try]/[break]/[except].
    Gives the candidate name the loop ended with. *)
Fixpoint rename_loop (n : nat) (duplicated_view : ElementId)
    (old_name candidate : string) : M string :=
  match n with
  | O => ret candidate
  | S n' =>
      let* renamed :=
        try_except
          (call_set_Name duplicated_view candidate ;;;
           print (old_name +:+ " -> " +:+ candidate) ;;;
           ret true)
          (fun _ => ret false) in
      if renamed : bool then ret candidate
      else rename_loop n' duplicated_view old_name (candidate +:+ "*")
  end.

(** Lines 98-102: the first collected view whose name is the template's. *)
Fixpoint find_template (d : Doc) (template_name : string)
    (template_collector : list ElementId) : option ElementId :=
  match template_collector with
  | [] => None
  | t :: rest =>
      if String.eqb (Name d t) template_name then Some t
      else find_template d template_name rest
  end.

Definition template_not_found (template_name name : string) : string :=
  "Template '" +:+ template_name +:+ "' not found for '" +:+ name +:+ "'".

(** Lines 95-109. *)
Definition assign_template (duplicated_view : ElementId)
    (template_name name : string) : M unit :=
  let* template_collector := collect_views in
  fun s =>
    match find_template (doc s) template_name template_collector with
    | Some new_template => call_set_ViewTemplateId duplicated_view new_template s
    | None => print (template_not_found template_name name) s
    end.

(** Lines 71-111: one turn of [for view in sel_views]. *)
Definition process_view (prefix template_name : string) (view : ViewObj)
    (duplicated_count : nat) : M nat :=
  if is_View3D view then
    let* duplicated_view := call_Duplicate (Id view) in
    let* old_name := get_Name (Id view) in
    let* name := rename_loop 20 duplicated_view old_name (new_name prefix old_name) in
    assign_template duplicated_view template_name name ;;;
    ret (duplicated_count + 1)%nat
  else ret duplicated_count.

Fixpoint for_views (prefix template_name : string) (sel_views : list ViewObj)
    (duplicated_count : nat) : M nat :=
  match sel_views with
  | [] => ret duplicated_count
  | view :: rest =>
      let* c := process_view prefix template_name view duplicated_count in
      for_views prefix template_name rest c
  end.

(** *** [main] *)

Definition summary (duplicated_count : nat) : string :=
  PyStr.of_nat duplicated_count +:+ " views duplicated, renamed, and template applied.".

(** [not sel_views]: [None] and the empty list are both false. *)
Definition selected (sel_views : option (list ViewObj)) : list ViewObj :=
  match sel_views with Some l => l | None => [] end.

(** [not system]: [None] and the empty string are both false. *)
Definition chosen (system : option string) : string :=
  match system with Some s => s | None => EmptyString end.

Definition lookup_system (system : string) : M SystemEntry :=
  match system_mapping !! system with
  | Some entry => ret entry
  | None => raise (KeyError system)
  end.

(** [sel_views] is what [forms.select_views()] returns and [system] what
    [forms.ask_for_one_item(options, ...)] returns; the second dialog is
    only reached when the first check passes. *)
Definition main (sel_views : option (list ViewObj)) (system : option string) : M unit :=
  (match selected sel_views with
   | [] => alert_exit "No Views Selected"
   | _ => ret tt
   end) ;;;
  (match chosen system with
   | EmptyString => alert_exit "No system selected"
   | _ => ret tt
   end) ;;;
  let* entry := lookup_system (chosen system) in
  tx_Start ;;;
  try_except_Exception
    (let* duplicated_count :=
       for_views (prefix entry) (template entry) (selected sel_views) 0%nat in
     tx_Commit ;;;
     alert (summary duplicated_count))
    (fun e =>
       tx_RollBack ;;;
       alert ("An error occurred: " +:+ str_of_exn e)).

(** The state the script starts from: no transaction yet. *)
Definition initial (d : Doc) : St := {| doc := d; tx := NotStarted |}.

End Script.

(** ** A reference host

    A small document model used to run the script on concrete inputs:
    a list of views, names unique across the document, templates marked
    as such.  Nothing proved about the script in general depends on it. *)

Module RefHost.

Record View := {
  v_id : ElementId;
  v_name : string;
  v_template : ElementId;       (* [-1]: none *)
  v_is_template : bool
}.

Definition Document := list View.

Fixpoint lookup (d : Document) (i : ElementId) : option View :=
  match d with
  | [] => None
  | v :: d' => if v_id v =? i then Some v else lookup d' i
  end.

Definition update (f : View -> View) (i : ElementId) (d : Document) : Document :=
  map (fun v => if v_id v =? i then f v else v) d.

Definition name_taken (d : Document) (but : ElementId) (s : string) : bool :=
  existsb (fun v => negb (v_id v =? but) && String.eqb (v_name v) s) d.

Definition fresh_id (d : Document) : ElementId :=
  1 + fold_right Z.max 0 (map v_id d).

Fixpoint copy_name (fuel k : nat) (d : Document) (s : string) : string :=
  let c := s +:+ " Copy " +:+ PyStr.of_nat k in
  match fuel with
  | O => c
  | S fuel' => if name_taken d (-1) c then copy_name fuel' (S k) d s else c
  end.

Definition duplicate (d : Document) (i : ElementId) : ApiError + (ElementId * Document) :=
  match lookup d i with
  | None => inl "The referenced object is not valid."
  | Some v =>
      let j := fresh_id d in
      inr (j, d ++ [ {| v_id := j;
                        v_name := copy_name (length d) 1 d (v_name v);
                        v_template := v_template v;
                        v_is_template := v_is_template v |} ])
  end.

Definition name (d : Document) (i : ElementId) : string :=
  match lookup d i with Some v => v_name v | None => EmptyString end.

Definition set_name (d : Document) (i : ElementId) (s : string) : ApiError + Document :=
  match lookup d i with
  | None => inl "The referenced object is not valid."
  | Some _ =>
      if name_taken d i s then inl "Name must be unique."
      else inr (update (fun v => {| v_id := v_id v; v_name := s;
                                    v_template := v_template v;
                                    v_is_template := v_is_template v |}) i d)
  end.

Definition template_id (d : Document) (i : ElementId) : ElementId :=
  match lookup d i with Some v => v_template v | None => -1 end.

Definition set_template_id (d : Document) (i t : ElementId) : ApiError + Document :=
  match lookup d i, lookup d t with
  | None, _ => inl "The referenced object is not valid."
  | Some _, Some tv =>
      if v_is_template tv
      then inr (update (fun v => {| v_id := v_id v; v_name := v_name v;
                                    v_template := t;
                                    v_is_template := v_is_template v |}) i d)
      else inl "The viewTemplateId is not valid as a view template."
  | Some _, None => inl "The viewTemplateId is not valid as a view template."
  end.

#[export] Instance host : Host := {|
  Doc := Document;
  Duplicate := duplicate;
  Name := name;
  set_Name := set_name;
  OfClass_View := map v_id;
  ViewTemplateId := template_id;
  set_ViewTemplateId := set_template_id
|}.

(** The script's state over this host. *)
Definition state (d : Document) (t : @TxStatus host) : @St host :=
  {| doc := d; tx := t |}.

(** The same, inside a transaction started on [saved]. *)
Definition started (saved d : Document) : @St host :=
  {| doc := d; tx := @Started host saved |}.

Definition view (i : ElementId) (s : string) : View :=
  {| v_id := i; v_name := s; v_template := -1; v_is_template := false |}.

Definition view_template (i : ElementId) (s : string) : View :=
  {| v_id := i; v_name := s; v_template := -1; v_is_template := true |}.

(** A project with two 3D views, a plan, and the architectural template. *)
Definition project : Document :=
  [ view 1 "M_Level 1"; view 2 "Roof"; view 3 "Plan_Level 1";
    view_template 4 "ARCHITECTURE GLUE" ].

(** A project where the name the script wants is already taken, with
    the copy of view 1 in place. *)
Definition crowded : Document :=
  [ view 1 "M_Level 1"; view 7 "A_Level 1"; view 8 "M_Level 1 Copy 1" ].

(** A project where the wanted name is taken with every number of
    asterisks from 0 to 19. *)
Definition saturated : Document :=
  view 1 "M_Level 1" :: view_template 4 "ARCHITECTURE GLUE" ::
  map (fun j => view (100 + Z.of_nat j) ("A_Level 1" +:+ PyStr.stars j)) (seq 0 20).

(** A project whose template name differs from the table's by case. *)
Definition lowercase : Document :=
  [ view 1 "M_Level 1"; view 2 "Roof"; view_template 4 "Architecture Glue" ].

(** A project where the view named like the template is not a template. *)
Definition plain : Document :=
  [ view 1 "M_Level 1"; view 2 "Roof"; view 4 "ARCHITECTURE GLUE" ].

(** [d] after template [t] was given to view [i]. *)
Definition templated (d : Document) (i t : ElementId) : Document :=
  update (fun v => {| v_id := v_id v; v_name := v_name v;
                      v_template := t;
                      v_is_template := v_is_template v |}) i d.

(** [d] after view [i] was named [s]. *)
Definition renamed (d : Document) (i : ElementId) (s : string) : Document :=
  update (fun v => {| v_id := v_id v; v_name := s;
                      v_template := v_template v;
                      v_is_template := v_is_template v |}) i d.

(** A project where the wanted name is taken with every number of
    asterisks from 0 to 18, and free with 19. *)
Definition nearly_saturated : Document :=
  view 1 "M_Level 1" ::
  map (fun j => view (100 + Z.of_nat j) ("A_Level 1" +:+ PyStr.stars j)) (seq 0 19).

(** [crowded] before view 1 was duplicated. *)
Definition crowded0 : Document :=
  [ view 1 "M_Level 1"; view 7 "A_Level 1" ].

(** [saturated] with a second view to process. *)
Definition saturated_roof : Document :=
  view 2 "Roof" :: saturated.

(** The same where the view named like the template is not a template. *)
Definition saturated_plain : Document :=
  view 1 "M_Level 1" :: view 2 "Roof" :: view 4 "ARCHITECTURE GLUE" ::
  map (fun j => view (100 + Z.of_nat j) ("A_Level 1" +:+ PyStr.stars j)) (seq 0 20).

Definition selection : list ViewObj :=
  [ {| Id := 1; Class := View3D |}; {| Id := 3; Class := ViewPlan |};
    {| Id := 2; Class := View3D |} ].

End RefHost.

(** ** Reading a run

    The events of a run, sorted by what they tell. *)

(** The first [k] attempts, all refused: candidate [j] carries [j] asterisks. *)
Definition failed_attempts (i : ElementId) (candidate : string) (k : nat) : list Event :=
  map (fun j => EvSetName i (candidate +:+ PyStr.stars j) false) (seq 0 k).

(** The dialogs shown. *)
Definition alerts (evs : list Event) : list string :=
  flat_map (fun e => match e with EvAlert msg => [msg] | _ => [] end) evs.

(** The views [Duplicate] was called on, the views it created, and the
    views a setter was called on. *)
Definition duplicated (evs : list Event) : list ElementId :=
  flat_map (fun e => match e with EvDuplicate v _ => [v] | _ => [] end) evs.

Definition created (evs : list Event) : list ElementId :=
  flat_map (fun e => match e with EvDuplicate _ (Some i) => [i] | _ => [] end) evs.

Definition modified (evs : list Event) : list ElementId :=
  flat_map (fun e => match e with
                     | EvSetName i _ _ | EvSetTemplate i _ _ => [i]
                     | _ => []
                     end) evs.

(** How a run ends (lines 113-121) once the transaction was started on
    [d], the events [before] were emitted, and the rest of the loop ended
    as [loop]: commit and summary, or rollback and error dialog. *)
Definition close_run `{H : Host} (d : Doc) (before : list Event)
    (loop : list Event * St * (Exn + nat)) : list Event * St * (Exn + unit) :=
  match loop with
  | (evs, s, inr n) =>
      (EvStart :: before ++ evs ++ [EvCommit; EvAlert (summary n)],
       {| doc := doc s; tx := Committed |}, inr tt)
  | (evs, s, inl e) =>
      (EvStart :: before ++ evs ++
         [EvRollBack; EvAlert ("An error occurred: " +:+ str_of_exn e)],
       {| doc := d; tx := RolledBack |}, inr tt)
  end.

(** How many times the name setter was called. *)
Definition set_name_calls (evs : list Event) : nat :=
  length (List.filter (fun e => match e with EvSetName _ _ _ => true | _ => false end) evs).

(** Events of the rename and template steps of the turn that created [i]. *)
Definition on_copy (i : ElementId) (e : Event) : Prop :=
  match e with
  | EvSetName j _ _ | EvSetTemplate j _ _ => j = i
  | EvPrint _ => True
  | _ => False
  end.

(** Events a turn of the loop can emit. *)
Definition loop_event (e : Event) : Prop :=
  match e with
  | EvDuplicate _ _ | EvSetName _ _ _ | EvSetTemplate _ _ _ | EvPrint _ => True
  | _ => False
  end.

(** ** What keeps the originals safe *)

(** What the script relies on from the host for this: a duplicate is a
    new view, and duplicating, renaming or re-templating one view leaves
    the name and template of every other view present as they were. *)
Class HostFrame (H : Host) : Prop := {
  Duplicate_fresh : forall d v i d',
    Duplicate d v = inr (i, d') -> ~ In i (OfClass_View d);
  Duplicate_frame : forall d v i d',
    Duplicate d v = inr (i, d') ->
    forall j, In j (OfClass_View d) ->
      In j (OfClass_View d') /\ Name d' j = Name d j
      /\ ViewTemplateId d' j = ViewTemplateId d j;
  set_Name_frame : forall d i name d',
    set_Name d i name = inr d' ->
    forall j, j <> i -> In j (OfClass_View d) ->
      In j (OfClass_View d') /\ Name d' j = Name d j
      /\ ViewTemplateId d' j = ViewTemplateId d j;
  set_ViewTemplateId_frame : forall d i t d',
    set_ViewTemplateId d i t = inr d' ->
    forall j, j <> i -> In j (OfClass_View d) ->
      In j (OfClass_View d') /\ Name d' j = Name d j
      /\ ViewTemplateId d' j = ViewTemplateId d j
}.

(** Every view of [d0] is in [d], with the name and template it had. *)
Definition originals_kept `{H : Host} (d0 d : Doc) : Prop :=
  forall j, In j (OfClass_View d0) ->
    In j (OfClass_View d) /\ Name d j = Name d0 j
    /\ ViewTemplateId d j = ViewTemplateId d0 j.

(** * Properties *)

(** ** Strings *)

Lemma app_cons (x : ascii) (a b : string) : String x a +:+ b = String x (a +:+ b).
Proof. reflexivity. Qed.

Lemma app_assoc_str (a b c : string) : (a +:+ b) +:+ c = a +:+ (b +:+ c).
Proof. induction a as [|x a IH]; [reflexivity|]. rewrite !app_cons, IH. reflexivity. Qed.

Lemma contains_false_find (c : ascii) (s : string) :
  PyStr.contains c s = false -> PyStr.find c s = -1.
Proof.
  induction s as [|a s IH]; simpl; [reflexivity|].
  destruct (Ascii.eqb a c); simpl; [discriminate|].
  intros Hs. rewrite (IH Hs). reflexivity.
Qed.

Lemma find_first (c : ascii) (before after : string) :
  PyStr.contains c before = false ->
  PyStr.find c (before +:+ String c after) = Z.of_nat (String.length before).
Proof.
  induction before as [|a b IH]; simpl.
  - intros _. rewrite Ascii.eqb_refl. reflexivity.
  - destruct (Ascii.eqb a c); simpl; [discriminate|].
    intros Hb. rewrite (IH Hb).
    destruct (Z.eqb_spec (Z.of_nat (String.length b)) (-1)); lia.
Qed.

Lemma length_app (a b : string) :
  String.length (a +:+ b) = (String.length a + String.length b)%nat.
Proof. induction a as [|x a IH]; simpl; [reflexivity|]. rewrite IH. reflexivity. Qed.

Lemma drop_app (a b : string) : PyStr.drop (String.length a) (a +:+ b) = b.
Proof. induction a; simpl; [destruct b|]; auto. Qed.

Lemma slice_after (c : ascii) (before after : string) :
  PyStr.slice_from (Z.of_nat (String.length before) + 1) (before +:+ String c after) = after.
Proof.
  unfold PyStr.slice_from. rewrite length_app. simpl String.length.
  destruct (Z.ltb_spec (Z.of_nat (String.length before) + 1) 0); [lia|].
  rewrite Z.min_l by lia.
  replace (Z.to_nat (Z.of_nat (String.length before) + 1))
    with (String.length (before +:+ String c EmptyString)) by (rewrite length_app; simpl; lia).
  replace (before +:+ String c after) with ((before +:+ String c EmptyString) +:+ after)
    by (rewrite app_assoc_str; reflexivity).
  apply drop_app.
Qed.

(** [contains] is membership: a string holds [c] exactly when it splits
    around an occurrence of [c]. *)
Lemma contains_split (c : ascii) (s : string) :
  PyStr.contains c s = true <-> exists a b, s = a +:+ String c b.
Proof.
  split.
  - induction s as [|x s IH]; simpl; [discriminate|].
    destruct (Ascii.eqb_spec x c) as [->|Hne]; simpl.
    + intros _. exists EmptyString, s. reflexivity.
    + intros Hs. destruct (IH Hs) as (a & b & ->). exists (String x a), b. reflexivity.
  - intros (a & b & ->). induction a as [|x a IH]; simpl.
    + rewrite Ascii.eqb_refl. reflexivity.
    + rewrite IH. apply orb_true_r.
Qed.

Lemma new_name_split (prefix before after : string) :
  PyStr.contains "_" before = false ->
  new_name prefix (before +:+ "_" +:+ after) = prefix +:+ after.
Proof.
  intros Hb. unfold new_name. change ("_" +:+ after) with (String "_" after).
  rewrite (find_first _ _ _ Hb).
  destruct (Z.eqb_spec (Z.of_nat (String.length before)) (-1)); [lia|]. simpl negb.
  cbv iota. rewrite slice_after. reflexivity.
Qed.

Lemma new_name_whole (prefix old_name : string) :
  PyStr.contains "_" old_name = false -> new_name prefix old_name = prefix +:+ old_name.
Proof. intros Hs. unfold new_name. rewrite (contains_false_find _ _ Hs). reflexivity. Qed.


(** ** The discipline table *)

Lemma for_views_no_3d `{H : Host} (prefix template_name : string)
    (sel_views : list ViewObj) (c : nat) (s : St) :
  List.filter is_View3D sel_views = [] ->
  for_views prefix template_name sel_views c s = ([], s, inr c).
Proof.
  induction sel_views as [|view rest IH]; intros Hf; [reflexivity|].
  simpl in Hf. simpl. unfold bind, process_view.
  destruct (is_View3D view); [discriminate|].
  unfold ret at 1. rewrite (IH Hf). reflexivity.
Qed.

Lemma lookup_system_pure `{H : Host} (system : string) (entry : SystemEntry) (s : St) :
  system_mapping !! system = Some entry -> lookup_system system s = ([], s, inr entry).
Proof. intros E. unfold lookup_system. rewrite E. reflexivity. Qed.

Lemma empty_not_a_system : system_mapping !! EmptyString = None.
Proof. vm_compute. reflexivity. Qed.

(** What [main] does once both dialogs gave an answer and the table has
    the discipline: open the transaction and run the guarded block. *)
Lemma main_started `{H : Host} (sel_views : option (list ViewObj))
    (system : option string) (entry : SystemEntry) (d : Doc) :
  selected sel_views <> [] ->
  system_mapping !! chosen system = Some entry ->
  main sel_views system (initial d) =
    match for_views (prefix entry) (template entry) (selected sel_views) 0%nat
            {| doc := d; tx := Started d |} with
    | (evs, s, inr n) =>
        (EvStart :: evs ++ [EvCommit; EvAlert (summary n)],
         {| doc := doc s; tx := Committed |}, inr tt)
    | (evs, s, inl e) =>
        if is_Exception e then
          match tx_RollBack s with
          | (e1, s1, inr _) =>
              (EvStart :: evs ++ e1 ++ [EvAlert ("An error occurred: " +:+ str_of_exn e)],
               s1, inr tt)
          | (e1, s1, inl x) => (EvStart :: evs ++ e1, s1, inl x)
          end
        else (EvStart :: evs, s, inl e)
    end.
Proof.
  intros Hsel Hsys. unfold main.
  destruct (selected sel_views) as [|v l] eqn:Esel; [congruence|].
  destruct (chosen system) as [|a sy] eqn:Esys.
  { rewrite empty_not_a_system in Hsys. discriminate. }
  unfold bind at 1. unfold ret at 1. unfold bind at 1. unfold ret at 1.
  unfold bind at 1. rewrite (lookup_system_pure _ _ _ Hsys).
  unfold bind at 1. unfold tx_Start at 1. simpl doc.
  unfold try_except_Exception, try_except, bind at 1.
  destruct (for_views _ _ _ _ _) as [[evs s] [e|n]]; simpl.
  - destruct (is_Exception e); [|unfold raise; simpl; rewrite app_nil_r; reflexivity].
    unfold bind. destruct (tx_RollBack s) as [[e1 s1] [x|[]]]; simpl.
    + reflexivity.
    + reflexivity.
  - reflexivity.
Qed.

(** C8. The table has exactly five entries, one per offered label; looking
    a label up reads the table only (no host call, the same answer in
    every document), and a run that meets no 3D view commits whatever
    templates the document has. *)
Theorem system_mapping_fixed_five_entry_lookup :
  size system_mapping = 5%nat
  /\ length options = 5%nat
  /\ NoDup options
  /\ dom system_mapping = list_to_set options
  /\ map (fun system => system_mapping !! system) options =
       [ Some {| prefix := "A_"; template := "ARCHITECTURE GLUE" |};
         Some {| prefix := "MD_"; template := "MECHANICAL GLUE" |};
         Some {| prefix := "PL_"; template := "PLUMBING GLUE" |};
         Some {| prefix := "FP_"; template := "FIRE PROTECTION GLUE" |};
         Some {| prefix := "EE_"; template := "ELECTRICAL GLUE" |} ]
  /\ Forall (fun system =>
       exists entry, system_mapping !! system = Some entry /\
         forall (H : Host) (s : St), lookup_system system s = ([], s, inr entry))
       options
  /\ (forall (H : Host) (d : Doc) (sel_views : list ViewObj) (system : string),
        In system options -> sel_views <> [] ->
        List.filter is_View3D sel_views = [] ->
        main (Some sel_views) (Some system) (initial d) =
          ([EvStart; EvCommit; EvAlert (summary 0)],
           {| doc := d; tx := Committed |}, inr tt)).
Proof.
  assert (Hall : Forall (fun system => exists entry, system_mapping !! system = Some entry)
                   options).
  { repeat constructor; eexists; vm_compute; reflexivity. }
  split; [vm_compute; reflexivity|].
  split; [reflexivity|].
  split; [apply (bool_decide_unpack _); vm_compute; exact I|].
  split; [vm_compute; reflexivity|].
  split; [vm_compute; reflexivity|].
  split.
  - eapply Forall_impl; [exact Hall|]. intros system [entry E]. exists entry.
    split; [exact E|]. intros H s. apply lookup_system_pure, E.
  - intros H d sel_views system Hin Hne Hno.
    rewrite Forall_forall in Hall.
    destruct (Hall system) as [entry E]; [apply list_elem_of_In; exact Hin|].
    rewrite (main_started (Some sel_views) (Some system) entry d Hne E).
    simpl selected. rewrite (for_views_no_3d _ _ _ _ _ Hno). reflexivity.
Qed.

Lemma system_mapping_fixed_five_entry_lookup_witness :
  main (Some [ {| Id := 3; Class := ViewPlan |} ])
       (Some "Mechanical") (RefHost.state RefHost.project NotStarted) =
    ([EvStart; EvCommit; EvAlert "0 views duplicated, renamed, and template applied."],
     RefHost.state RefHost.project Committed, inr tt).
Proof.
  apply (proj2 (proj2 (proj2 (proj2 (proj2 (proj2
           system_mapping_fixed_five_entry_lookup)))))
         RefHost.host RefHost.project [ {| Id := 3; Class := ViewPlan |} ] "Mechanical").
  - right; left; reflexivity.
  - discriminate.
  - reflexivity.
Defined.

(** ** Leaving before the transaction *)

Lemma main_no_views `{H : Host} (sel_views : option (list ViewObj))
    (system : option string) (d : Doc) :
  selected sel_views = [] ->
  main sel_views system (initial d) =
    ([EvAlert "No Views Selected"], initial d, inl SystemExit).
Proof. intros Hsel. unfold main. rewrite Hsel. reflexivity. Qed.

Lemma main_no_system `{H : Host} (sel_views : option (list ViewObj))
    (system : option string) (d : Doc) :
  selected sel_views <> [] -> chosen system = EmptyString ->
  main sel_views system (initial d) =
    ([EvAlert "No system selected"], initial d, inl SystemExit).
Proof.
  intros Hsel Hsys. unfold main. rewrite Hsys.
  destruct (selected sel_views); [congruence|]. reflexivity.
Qed.

(** C6. With no view selected, or with views selected but no discipline
    chosen, the script shows one alert and exits: the transaction is never
    started, no host call is made, and the document is untouched. *)
Theorem abort_before_transaction `{H : Host} (sel_views : option (list ViewObj))
    (system : option string) (d : Doc) :
  (selected sel_views = [] ->
   main sel_views system (initial d) =
     ([EvAlert "No Views Selected"], initial d, inl SystemExit))
  /\ (selected sel_views <> [] -> chosen system = EmptyString ->
      main sel_views system (initial d) =
        ([EvAlert "No system selected"], initial d, inl SystemExit)).
Proof.
  split; [apply main_no_views|apply main_no_system].
Qed.

Lemma abort_before_transaction_witness :
  main None (Some "Plumbing") (RefHost.state RefHost.project NotStarted) =
    ([EvAlert "No Views Selected"], RefHost.state RefHost.project NotStarted, inl SystemExit)
  /\ main (Some RefHost.selection) None (RefHost.state RefHost.project NotStarted) =
    ([EvAlert "No system selected"], RefHost.state RefHost.project NotStarted, inl SystemExit).
Proof.
  split.
  - apply (proj1 (abort_before_transaction (H := RefHost.host) None (Some "Plumbing")
                    RefHost.project)).
    reflexivity.
  - apply (proj2 (abort_before_transaction (H := RefHost.host) (Some RefHost.selection)
                    None RefHost.project)).
    + discriminate.
    + reflexivity.
Defined.

(** ** The rename loop *)

Lemma app_empty_r (a : string) : a +:+ EmptyString = a.
Proof. induction a as [|x a IH]; [reflexivity|]. rewrite app_cons, IH. reflexivity. Qed.

Lemma stars_shift (candidate : string) (j : nat) :
  (candidate +:+ "*") +:+ PyStr.stars j = candidate +:+ PyStr.stars (S j).
Proof. rewrite app_assoc_str. reflexivity. Qed.

Lemma failed_attempts_S (i : ElementId) (candidate : string) (k : nat) :
  failed_attempts i candidate (S k) =
    EvSetName i candidate false :: failed_attempts i (candidate +:+ "*") k.
Proof.
  unfold failed_attempts. simpl seq. rewrite <- seq_shift, map_cons, map_map.
  simpl PyStr.stars at 1. rewrite app_empty_r. f_equal.
  apply map_ext. intros j. rewrite stars_shift. reflexivity.
Qed.

Section RenameLoop.

Context {H : Host}.
Variables (i : ElementId) (old_name : string).

Lemma rename_loop_refused (n : nat) (candidate msg : string) (s : St) :
  set_Name (doc s) i candidate = inl msg ->
  rename_loop (S n) i old_name candidate s =
    match rename_loop n i old_name (candidate +:+ "*") s with
    | (evs, s', r) => (EvSetName i candidate false :: evs, s', r)
    end.
Proof.
  intros E. simpl. unfold bind at 1, try_except, bind at 1, call_set_Name.
  rewrite E. simpl. reflexivity.
Qed.

Lemma rename_loop_accepted (n : nat) (candidate : string) (d' : Doc) (s : St) :
  set_Name (doc s) i candidate = inr d' ->
  rename_loop (S n) i old_name candidate s =
    ([EvSetName i candidate true; EvPrint (old_name +:+ " -> " +:+ candidate)],
     {| doc := d'; tx := tx s |}, inr candidate).
Proof.
  intros E. simpl. unfold bind at 1, try_except, bind at 1, call_set_Name.
  rewrite E. reflexivity.
Qed.

(** Refused [k] times, then accepted, with attempts to spare. *)
Lemma rename_loop_success (k : nat) : forall (n : nat) (candidate : string) (d' : Doc) (s : St),
  (k < n)%nat ->
  (forall j, (j < k)%nat ->
     exists msg, set_Name (doc s) i (candidate +:+ PyStr.stars j) = inl msg) ->
  set_Name (doc s) i (candidate +:+ PyStr.stars k) = inr d' ->
  rename_loop n i old_name candidate s =
    (failed_attempts i candidate k ++
       [EvSetName i (candidate +:+ PyStr.stars k) true;
        EvPrint (old_name +:+ " -> " +:+ candidate +:+ PyStr.stars k)],
     {| doc := d'; tx := tx s |}, inr (candidate +:+ PyStr.stars k)).
Proof.
  induction k as [|k IH]; intros n candidate d' s Hlt Hfail Hok.
  - destruct n as [|n]; [lia|]. simpl PyStr.stars in *.
    rewrite app_empty_r in *. apply rename_loop_accepted, Hok.
  - destruct n as [|n]; [lia|].
    destruct (Hfail 0%nat ltac:(lia)) as [msg E0].
    simpl PyStr.stars in E0. rewrite app_empty_r in E0.
    rewrite (rename_loop_refused _ _ _ _ E0).
    rewrite (IH n (candidate +:+ "*") d' s).
    + rewrite failed_attempts_S, !stars_shift. reflexivity.
    + lia.
    + intros j Hj. rewrite stars_shift. apply Hfail. lia.
    + rewrite stars_shift. exact Hok.
Qed.

(** Refused every time. *)
Lemma rename_loop_exhausted (n : nat) : forall (candidate : string) (s : St),
  (forall j, (j < n)%nat ->
     exists msg, set_Name (doc s) i (candidate +:+ PyStr.stars j) = inl msg) ->
  rename_loop n i old_name candidate s =
    (failed_attempts i candidate n, s, inr (candidate +:+ PyStr.stars n)).
Proof.
  induction n as [|n IH]; intros candidate s Hfail.
  - simpl. rewrite app_empty_r. reflexivity.
  - destruct (Hfail 0%nat ltac:(lia)) as [msg E0].
    simpl PyStr.stars in E0. rewrite app_empty_r in E0.
    rewrite (rename_loop_refused _ _ _ _ E0), IH.
    + rewrite failed_attempts_S, stars_shift. reflexivity.
    + intros j Hj. rewrite stars_shift. apply Hfail. lia.
Qed.

(** The loop always ends in one of these two ways, and never raises. *)
Lemma rename_loop_cases (n : nat) : forall (candidate : string) (s : St),
  rename_loop n i old_name candidate s =
    (failed_attempts i candidate n, s, inr (candidate +:+ PyStr.stars n))
  \/ exists k d',
       (k < n)%nat /\
       set_Name (doc s) i (candidate +:+ PyStr.stars k) = inr d' /\
       rename_loop n i old_name candidate s =
         (failed_attempts i candidate k ++
            [EvSetName i (candidate +:+ PyStr.stars k) true;
             EvPrint (old_name +:+ " -> " +:+ candidate +:+ PyStr.stars k)],
          {| doc := d'; tx := tx s |}, inr (candidate +:+ PyStr.stars k)).
Proof.
  induction n as [|n IH]; intros candidate s.
  - left. simpl. rewrite app_empty_r. reflexivity.
  - destruct (set_Name (doc s) i candidate) as [msg|d'] eqn:E.
    + rewrite (rename_loop_refused _ _ _ _ E).
      destruct (IH (candidate +:+ "*") s) as [->|(k & d' & Hk & Hok & ->)].
      * left. rewrite failed_attempts_S, stars_shift. reflexivity.
      * right. exists (S k), d'. rewrite !stars_shift in *.
        split; [lia|]. split; [exact Hok|].
        rewrite failed_attempts_S. reflexivity.
    + right. exists 0%nat, d'. simpl PyStr.stars. rewrite !app_empty_r.
      split; [lia|]. split; [exact E|]. apply rename_loop_accepted, E.
Qed.

End RenameLoop.

(** ** The template step and the whole loop body *)

Section LoopBody.

Context {H : Host}.

Lemma find_template_Some (d : Doc) (template_name : string) (l : list ElementId)
    (t : ElementId) :
  find_template d template_name l = Some t <->
  exists l1 l2, l = l1 ++ t :: l2 /\ Name d t = template_name /\
                Forall (fun u => Name d u <> template_name) l1.
Proof.
  split.
  - induction l as [|u l IH]; simpl; [discriminate|].
    destruct (String.eqb_spec (Name d u) template_name) as [E|E].
    + intros [= ->]. exists [], l. auto.
    + intros Hl. destruct (IH Hl) as (l1 & l2 & -> & Ht & Hl1).
      exists (u :: l1), l2. auto.
  - intros (l1 & l2 & -> & Ht & Hl1). induction Hl1 as [|u l1 Hu _ IH]; simpl.
    + rewrite (proj2 (String.eqb_eq _ _) Ht). reflexivity.
    + rewrite (proj2 (String.eqb_neq _ _) Hu). exact IH.
Qed.

Lemma find_template_None (d : Doc) (template_name : string) (l : list ElementId) :
  find_template d template_name l = None <->
  Forall (fun u => Name d u <> template_name) l.
Proof.
  induction l as [|u l IH]; simpl.
  - split; auto.
  - destruct (String.eqb_spec (Name d u) template_name) as [E|E].
    + split; [discriminate|]. intros Hl. inversion Hl; subst. congruence.
    + rewrite IH. split; [auto|]. intros Hl. inversion Hl; auto.
Qed.

Lemma assign_template_cases (i : ElementId) (template_name name : string) (s : St) :
  assign_template i template_name name s =
    match find_template (doc s) template_name (OfClass_View (doc s)) with
    | Some t =>
        match set_ViewTemplateId (doc s) i t with
        | inr d' => ([EvSetTemplate i t true], {| doc := d'; tx := tx s |}, inr tt)
        | inl msg => ([EvSetTemplate i t false], s, inl (ApiException msg))
        end
    | None => ([EvPrint (template_not_found template_name name)], s, inr tt)
    end.
Proof.
  unfold assign_template, bind, collect_views, call_set_ViewTemplateId, print, emit.
  destruct (find_template _ _ _); [destruct (set_ViewTemplateId _ _ _)|]; reflexivity.
Qed.

(** One turn of the loop on a 3D view the host could duplicate: rename
    loop, then template step, then the count. *)
Lemma process_view_3D (prefix template_name : string) (view : ViewObj) (c : nat)
    (s : St) (i : ElementId) (d1 : Doc) :
  is_View3D view = true ->
  Duplicate (doc s) (Id view) = inr (i, d1) ->
  process_view prefix template_name view c s =
    match rename_loop 20 i (Name d1 (Id view)) (new_name prefix (Name d1 (Id view)))
            {| doc := d1; tx := tx s |} with
    | (evs_r, s_r, inr name) =>
        match assign_template i template_name name s_r with
        | (evs_t, s_t, inr _) =>
            (EvDuplicate (Id view) (Some i) :: evs_r ++ evs_t, s_t, inr (c + 1)%nat)
        | (evs_t, s_t, inl e) =>
            (EvDuplicate (Id view) (Some i) :: evs_r ++ evs_t, s_t, inl e)
        end
    | (evs_r, s_r, inl e) => (EvDuplicate (Id view) (Some i) :: evs_r, s_r, inl e)
    end.
Proof.
  intros H3 Hdup. unfold process_view. rewrite H3.
  unfold bind at 1, call_Duplicate. rewrite Hdup.
  unfold bind at 1, get_Name. simpl doc.
  unfold bind at 1.
  destruct (rename_loop _ _ _ _ _) as [[evs_r s_r] [e|name]]; [reflexivity|].
  unfold bind at 1.
  destruct (assign_template _ _ _ _) as [[evs_t s_t] [e|u]]; simpl.
  - reflexivity.
  - rewrite app_nil_r. reflexivity.
Qed.

Lemma process_view_not_duplicated (prefix template_name : string) (view : ViewObj)
    (c : nat) (s : St) (msg : ApiError) :
  is_View3D view = true ->
  Duplicate (doc s) (Id view) = inl msg ->
  process_view prefix template_name view c s =
    ([EvDuplicate (Id view) None], s, inl (ApiException msg)).
Proof.
  intros H3 Hdup. unfold process_view. rewrite H3.
  unfold bind at 1, call_Duplicate. rewrite Hdup. reflexivity.
Qed.

Lemma process_view_skipped (prefix template_name : string) (view : ViewObj)
    (c : nat) (s : St) :
  is_View3D view = false ->
  process_view prefix template_name view c s = ([], s, inr c).
Proof. intros H3. unfold process_view. rewrite H3. reflexivity. Qed.

Lemma for_views_cons (prefix template_name : string) (view : ViewObj)
    (rest : list ViewObj) (c : nat) (s : St) :
  for_views prefix template_name (view :: rest) c s =
    match process_view prefix template_name view c s with
    | (e1, s1, inr c') =>
        match for_views prefix template_name rest c' s1 with
        | (e2, s2, r) => (e1 ++ e2, s2, r)
        end
    | (e1, s1, inl x) => (e1, s1, inl x)
    end.
Proof.
  simpl. unfold bind.
  destruct (process_view _ _ _ _ _) as [[e1 s1] [x|c']]; reflexivity.
Qed.

End LoopBody.

(** ** The name the copy is given first *)

Lemma process_view_first_attempt `{H : Host} (prefix template_name : string)
    (view : ViewObj) (c : nat) (s : St) (i : ElementId) (d1 : Doc) :
  is_View3D view = true ->
  Duplicate (doc s) (Id view) = inr (i, d1) ->
  exists ok rest,
    fst (fst (process_view prefix template_name view c s)) =
      EvDuplicate (Id view) (Some i)
        :: EvSetName i (new_name prefix (Name d1 (Id view))) ok :: rest.
Proof.
  intros H3 Hdup. rewrite (process_view_3D _ _ _ _ _ _ _ H3 Hdup).
  destruct (set_Name d1 i (new_name prefix (Name d1 (Id view)))) as [msg|d2] eqn:E.
  - rewrite (rename_loop_refused i (Name d1 (Id view)) 19 _ msg
               {| doc := d1; tx := tx s |} E).
    destruct (rename_loop 19 _ _ _ _) as [[evs_r s_r] [e|name]].
    + exists false, evs_r. reflexivity.
    + destruct (assign_template _ _ _ _) as [[evs_t s_t] [e|u]];
        exists false, (evs_r ++ evs_t); reflexivity.
  - rewrite (rename_loop_accepted i (Name d1 (Id view)) 19 _ d2
               {| doc := d1; tx := tx s |} E).
    destruct (assign_template _ _ _ _) as [[evs_t s_t] [e|u]];
      eexists true, _; reflexivity.
Qed.

(** C1. The name computed for the copy is the discipline's prefix followed
    by what comes after the first underscore of the source name, and by
    the whole source name when it has no underscore; it is the name the
    script first tries to give the copy; ["X_Y_Z"] with prefix ["A_"]
    gives ["A_Y_Z"]. *)
Theorem new_name_drops_through_first_underscore (prefix old_name : string) :
  (forall before after,
      PyStr.contains "_" before = false ->
      old_name = before +:+ "_" +:+ after ->
      new_name prefix old_name = prefix +:+ after)
  /\ (PyStr.contains "_" old_name = false ->
      new_name prefix old_name = prefix +:+ old_name)
  /\ (forall (H : Host) (template_name : string) (view : ViewObj) (c : nat) (s : St)
         (i : ElementId) (d1 : Doc),
        is_View3D view = true ->
        Duplicate (doc s) (Id view) = inr (i, d1) ->
        exists ok rest,
          fst (fst (process_view prefix template_name view c s)) =
            EvDuplicate (Id view) (Some i)
              :: EvSetName i (new_name prefix (Name d1 (Id view))) ok :: rest)
  /\ new_name "A_" "X_Y_Z" = "A_Y_Z".
Proof.
  split; [|split; [|split]].
  - intros before after Hb ->. apply new_name_split, Hb.
  - apply new_name_whole.
  - intros H. apply process_view_first_attempt.
  - reflexivity.
Qed.

Lemma new_name_drops_through_first_underscore_witness :
  new_name "MD_" "X_Y_Z" = "MD_Y_Z"
  /\ new_name "MD_" "ViewName" = "MD_ViewName"
  /\ exists ok rest,
       fst (fst (process_view "A_" "ARCHITECTURE GLUE" {| Id := 1; Class := View3D |} 0%nat
                   (RefHost.started RefHost.project RefHost.project))) =
         EvDuplicate 1 (Some 5) :: EvSetName 5 "A_Level 1" ok :: rest.
Proof.
  split; [|split].
  - apply (proj1 (new_name_drops_through_first_underscore "MD_" "X_Y_Z") "X" "Y_Z");
      reflexivity.
  - apply (proj1 (proj2 (new_name_drops_through_first_underscore "MD_" "ViewName")));
      reflexivity.
  - apply (proj1 (proj2 (proj2 (new_name_drops_through_first_underscore "A_" "M_Level 1")))
             RefHost.host "ARCHITECTURE GLUE" {| Id := 1; Class := View3D |} 0%nat
             (RefHost.started RefHost.project RefHost.project)
             5 (RefHost.project ++ [RefHost.view 5 "M_Level 1 Copy 1"]));
      reflexivity.
Defined.

Lemma alerts_failed_attempts (i : ElementId) (candidate : string) (k : nat) :
  alerts (failed_attempts i candidate k) = [].
Proof.
  unfold failed_attempts. induction (seq 0 k) as [|j l IH]; [reflexivity|exact IH].
Qed.



(** ** The loop over the selection *)

Lemma on_copy_facts (i : ElementId) (evs : list Event) :
  Forall (on_copy i) evs ->
  Forall loop_event evs /\ duplicated evs = [] /\ created evs = []
  /\ incl (modified evs) [i].
Proof.
  induction 1 as [|e evs He _ (IH1 & IH2 & IH3 & IH4)].
  - repeat split; auto. intros x [].
  - destruct e; simpl in He; try contradiction; subst; repeat split; auto;
      try (constructor; [exact I|exact IH1]).
    + intros x [<-|Hx]; [left; reflexivity|auto].
    + intros x [<-|Hx]; [left; reflexivity|auto].
Qed.

Lemma loop_event_facts (evs : list Event) :
  Forall loop_event evs ->
  alerts evs = [] /\ ~ In EvStart evs /\ ~ In EvCommit evs /\ ~ In EvRollBack evs.
Proof.
  induction 1 as [|e evs He _ (IH1 & IH2 & IH3 & IH4)].
  - repeat split; auto.
  - destruct e; simpl in He; try contradiction;
      (split; [exact IH1|]); repeat split; intros [Hx|Hx]; try discriminate; auto.
Qed.

Section Loop.

Context {H : Host}.

Lemma rename_loop_on_copy (i : ElementId) (old_name candidate : string) (n : nat) (s : St) :
  match rename_loop n i old_name candidate s with
  | (evs, s', r) => Forall (on_copy i) evs /\ tx s' = tx s /\ exists name, r = inr name
  end.
Proof.
  assert (Hf : forall k, Forall (on_copy i) (failed_attempts i candidate k)).
  { intros k. unfold failed_attempts. apply Forall_map, Forall_forall. intros; reflexivity. }
  destruct (rename_loop_cases i old_name n candidate s) as [->|(k & d' & _ & _ & ->)].
  - split; [apply Hf|]. eauto.
  - split; [|simpl; eauto]. apply Forall_app. split; [apply Hf|].
    repeat constructor.
Qed.

Lemma assign_template_on_copy (i : ElementId) (template_name name : string) (s : St) :
  match assign_template i template_name name s with
  | (evs, s', r) =>
      Forall (on_copy i) evs /\ tx s' = tx s
      /\ (r = inr tt \/ exists msg, r = inl (ApiException msg))
  end.
Proof.
  rewrite assign_template_cases.
  destruct (find_template _ _ _); [destruct (set_ViewTemplateId _ _ _)|];
    (split; [repeat constructor|]); simpl; eauto.
Qed.

(** The three ways a turn can go. *)
Lemma process_view_cases (prefix template_name : string) (view : ViewObj) (c : nat) (s : St) :
  match process_view prefix template_name view c s with
  | (evs, s', r) =>
      tx s' = tx s /\
      ((is_View3D view = false /\ evs = [] /\ r = inr c)
       \/ (is_View3D view = true /\
           exists msg, evs = [EvDuplicate (Id view) None] /\ r = inl (ApiException msg))
       \/ (is_View3D view = true /\
           exists i evs', evs = EvDuplicate (Id view) (Some i) :: evs' /\
                          Forall (on_copy i) evs' /\
                          (r = inr (c + 1)%nat \/ exists msg, r = inl (ApiException msg))))
  end.
Proof.
  destruct (is_View3D view) eqn:H3.
  - destruct (Duplicate (doc s) (Id view)) as [msg|[i d1]] eqn:Hdup.
    + rewrite (process_view_not_duplicated _ _ _ _ _ _ H3 Hdup).
      split; [reflexivity|]. right; left. eauto.
    + rewrite (process_view_3D _ _ _ _ _ _ _ H3 Hdup).
      pose proof (rename_loop_on_copy i (Name d1 (Id view))
                    (new_name prefix (Name d1 (Id view))) 20
                    {| doc := d1; tx := tx s |}) as Hr.
      destruct (rename_loop _ _ _ _ _) as [[evs_r s_r] r].
      destruct Hr as (Hr1 & Hr2 & name & ->). simpl in Hr2.
      pose proof (assign_template_on_copy i template_name name s_r) as Ht.
      destruct (assign_template _ _ _ _) as [[evs_t s_t] rt].
      destruct Ht as (Ht1 & Ht2 & [->|[msg ->]]).
      * split; [congruence|]. right; right. split; [reflexivity|].
        exists i, (evs_r ++ evs_t). split; [reflexivity|].
        split; [apply Forall_app; auto|]. left. reflexivity.
      * split; [congruence|]. right; right. split; [reflexivity|].
        exists i, (evs_r ++ evs_t). split; [reflexivity|].
        split; [apply Forall_app; auto|]. right. eauto.
  - rewrite (process_view_skipped _ _ _ _ _ H3). split; [reflexivity|]. left. auto.
Qed.

End Loop.

Lemma duplicated_app (a b : list Event) : duplicated (a ++ b) = duplicated a ++ duplicated b.
Proof. apply flat_map_app. Qed.

Lemma created_app (a b : list Event) : created (a ++ b) = created a ++ created b.
Proof. apply flat_map_app. Qed.

Lemma modified_app (a b : list Event) : modified (a ++ b) = modified a ++ modified b.
Proof. apply flat_map_app. Qed.

Lemma alerts_app (a b : list Event) : alerts (a ++ b) = alerts a ++ alerts b.
Proof. apply flat_map_app. Qed.

Section Batch.

Context {H : Host}.

(** What the loop over the selection guarantees, however it ends. *)
Lemma for_views_props (prefix template_name : string) (sel_views : list ViewObj) :
  forall (c : nat) (s : St),
    match for_views prefix template_name sel_views c s with
    | (evs, s', r) =>
        tx s' = tx s
        /\ Forall loop_event evs
        /\ incl (modified evs) (created evs)
        /\ match r with
           | inr n =>
               n = (c + length (List.filter is_View3D sel_views))%nat
               /\ duplicated evs = map Id (List.filter is_View3D sel_views)
           | inl e =>
               (exists msg, e = ApiException msg)
               /\ exists rest,
                    map Id (List.filter is_View3D sel_views) = duplicated evs ++ rest
           end
    end.
Proof.
  induction sel_views as [|view rest IH]; intros c s.
  - simpl. repeat split; auto. intros x [].
  - rewrite for_views_cons.
    pose proof (process_view_cases prefix template_name view c s) as Hpv.
    destruct (process_view _ _ _ _ _) as [[e1 s1] r1].
    destruct Hpv as (Htx & [(H3 & -> & ->)|[(H3 & msg & -> & ->)|(H3 & i & evs' & -> & Hon & Hr)]]).
    + specialize (IH c s1). destruct (for_views _ _ rest _ _) as [[e2 s2] r2].
      destruct IH as (IH1 & IH2 & IH3 & IH4). simpl List.filter. rewrite H3.
      simpl. repeat split; auto. congruence.
    + simpl List.filter. rewrite H3. simpl.
      split; [exact Htx|]. split; [repeat constructor|].
      split; [intros x []|]. split; [eauto|].
      exists (map Id (List.filter is_View3D rest)). reflexivity.
    + destruct (on_copy_facts i evs' Hon) as (F1 & F2 & F3 & F4).
      simpl List.filter. rewrite H3.
      destruct Hr as [->|[msg ->]].
      * specialize (IH (c + 1)%nat s1). destruct (for_views _ _ rest _ _) as [[e2 s2] r2].
        destruct IH as (IH1 & IH2 & IH3 & IH4).
        split; [congruence|].
        split; [constructor; [exact I|apply Forall_app; auto]|].
        split.
        { change (EvDuplicate (Id view) (Some i) :: evs') with
            ([EvDuplicate (Id view) (Some i)] ++ evs').
          rewrite !modified_app, !created_app, F3. simpl.
          intros x Hx. apply in_app_or in Hx. destruct Hx as [Hx|Hx].
          - apply F4 in Hx. destruct Hx as [<-|[]]. left. reflexivity.
          - right. apply IH3, Hx. }
        change (EvDuplicate (Id view) (Some i) :: evs') with
          ([EvDuplicate (Id view) (Some i)] ++ evs').
        rewrite !duplicated_app, F2. simpl.
        destruct r2 as [e|n].
        -- destruct IH4 as (He & rest' & Hrest). split; [exact He|].
           exists rest'. rewrite Hrest. reflexivity.
        -- destruct IH4 as (-> & Hd). split; [simpl; lia|]. rewrite Hd. reflexivity.
      * split; [exact Htx|].
        split; [constructor; [exact I|exact F1]|].
        split.
        { simpl. intros x Hx. apply F4 in Hx. destruct Hx as [<-|[]]. left. reflexivity. }
        split; [eauto|].
        exists (map Id (List.filter is_View3D rest)). simpl. rewrite F2. reflexivity.
Qed.

End Batch.

(** ** One view's turn inside a run *)

Lemma for_views_split `{H : Host} (prefix template_name : string)
    (l1 l2 : list ViewObj) :
  forall (c : nat) (s : St),
    for_views prefix template_name (l1 ++ l2) c s =
      match for_views prefix template_name l1 c s with
      | (e1, s1, inr c') =>
          match for_views prefix template_name l2 c' s1 with
          | (e2, s2, r) => (e1 ++ e2, s2, r)
          end
      | (e1, s1, inl x) => (e1, s1, inl x)
      end.
Proof.
  induction l1 as [|view rest IH]; intros c s.
  - simpl app. change (for_views prefix template_name [] c s) with (@nil Event, s, @inr Exn nat c).
    cbv iota beta. destruct (for_views _ _ l2 c s) as [[e2 s2] r]. reflexivity.
  - rewrite <- app_comm_cons, !for_views_cons.
    destruct (process_view _ _ _ _ _) as [[e0 s0] [x|c0]]; [reflexivity|].
    rewrite IH.
    destruct (for_views _ _ rest c0 s0) as [[e1 s1] [x|c']]; [reflexivity|].
    destruct (for_views _ _ l2 c' s1) as [[e2 s2] r].
    rewrite List.app_assoc. reflexivity.
Qed.

Section Turn.

Context {H : Host}.
Variables (system : string) (entry : SystemEntry) (d : Doc).
Variables (before : list ViewObj) (view : ViewObj) (after : list ViewObj).
Variables (e0 : list Event) (s0 : St) (c0 : nat).

Hypothesis Hsys : system_mapping !! system = Some entry.
Hypothesis Hbefore :
  for_views (prefix entry) (template entry) before 0%nat
    {| doc := d; tx := Started d |} = (e0, s0, inr c0).

(** The run, given how the turn of [view] went. *)
Lemma main_through_turn (e1 : list Event) (s1 : St) (r1 : Exn + nat) :
  process_view (prefix entry) (template entry) view c0 s0 = (e1, s1, r1) ->
  main (Some (before ++ view :: after)) (Some system) (initial d) =
    close_run d (e0 ++ e1)
      match r1 with
      | inr c1 => for_views (prefix entry) (template entry) after c1 s1
      | inl x => ([], s1, inl x)
      end.
Proof.
  intros Hpv.
  assert (Hsel : selected (Some (before ++ view :: after)) <> []).
  { simpl. destruct before; discriminate. }
  rewrite (main_started (Some (before ++ view :: after)) (Some system) entry d Hsel Hsys).
  simpl selected.
  pose proof (for_views_props (prefix entry) (template entry) (before ++ view :: after)
                0%nat {| doc := d; tx := Started d |}) as Hp.
  rewrite for_views_split, Hbefore, for_views_cons, Hpv in Hp |- *.
  destruct r1 as [x|c1].
  - cbv iota beta in Hp |- *.
    destruct Hp as (Htx & _ & _ & (msg & ->) & _). simpl in Htx.
    simpl is_Exception. cbv iota. unfold tx_RollBack. rewrite Htx. reflexivity.
  - destruct (for_views _ _ after c1 s1) as [[e2 s2] [x|n]]; cbv iota beta in Hp |- *.
    + destruct Hp as (Htx & _ & _ & (msg & ->) & _). simpl in Htx.
      simpl is_Exception. cbv iota. unfold tx_RollBack. rewrite Htx.
      unfold close_run. rewrite <- !List.app_assoc. reflexivity.
    + unfold close_run. rewrite <- !List.app_assoc. reflexivity.
Qed.

(** The turn's events are in the run's, right after those of the views
    before it. *)
Lemma main_events_through_turn (e1 : list Event) (s1 : St) (r1 : Exn + nat) :
  process_view (prefix entry) (template entry) view c0 s0 = (e1, s1, r1) ->
  exists tail,
    fst (fst (main (Some (before ++ view :: after)) (Some system) (initial d))) =
      EvStart :: e0 ++ e1 ++ tail.
Proof.
  intros Hpv. rewrite (main_through_turn e1 s1 r1 Hpv).
  destruct r1 as [x|c1]; [|destruct (for_views _ _ after c1 s1) as [[e2 s2] [x|n]]];
    unfold close_run; cbn [fst]; eexists; rewrite <- !List.app_assoc; reflexivity.
Qed.

Variables (i : ElementId) (d1 : Doc).

Hypothesis H3 : is_View3D view = true.
Hypothesis Hdup : Duplicate (doc s0) (Id view) = inr (i, d1).

(** The events of a turn whose rename loop ended with [name]. *)
Lemma main_events_through_rename (evs_r : list Event) (s_r : St) (name : string) :
  rename_loop 20 i (Name d1 (Id view)) (new_name (prefix entry) (Name d1 (Id view)))
    {| doc := d1; tx := tx s0 |} = (evs_r, s_r, inr name) ->
  exists tail,
    fst (fst (main (Some (before ++ view :: after)) (Some system) (initial d))) =
      EvStart :: e0 ++ EvDuplicate (Id view) (Some i) :: evs_r ++
        fst (fst (assign_template i (template entry) name s_r)) ++ tail.
Proof.
  intros Hren.
  destruct (process_view (prefix entry) (template entry) view c0 s0)
    as [[e1 s1] r1] eqn:Epv.
  destruct (main_events_through_turn e1 s1 r1 Epv) as [tail Ht].
  exists tail. rewrite Ht.
  rewrite (process_view_3D _ _ _ _ _ _ _ H3 Hdup), Hren in Epv.
  destruct (assign_template _ _ _ _) as [[evs_t s_t] [e|u]];
    injection Epv as <- _ _; cbn [fst]; rewrite <- app_comm_cons, <- !List.app_assoc;
    reflexivity.
Qed.

(** The turn and the run when the template step ends as [evs_t], [s_t]. *)
Lemma main_through_template (evs_r : list Event) (s_r : St) (name : string)
    (evs_t : list Event) (s_t : St) (r_t : Exn + unit) :
  rename_loop 20 i (Name d1 (Id view)) (new_name (prefix entry) (Name d1 (Id view)))
    {| doc := d1; tx := tx s0 |} = (evs_r, s_r, inr name) ->
  assign_template i (template entry) name s_r = (evs_t, s_t, r_t) ->
  let turn := EvDuplicate (Id view) (Some i) :: evs_r ++ evs_t in
  match r_t with
  | inr _ =>
      process_view (prefix entry) (template entry) view c0 s0 = (turn, s_t, inr (c0 + 1)%nat)
      /\ main (Some (before ++ view :: after)) (Some system) (initial d) =
           close_run d (e0 ++ turn)
             (for_views (prefix entry) (template entry) after (c0 + 1)%nat s_t)
  | inl x =>
      process_view (prefix entry) (template entry) view c0 s0 = (turn, s_t, inl x)
      /\ main (Some (before ++ view :: after)) (Some system) (initial d) =
           close_run d (e0 ++ turn) ([], s_t, inl x)
  end.
Proof.
  intros Hren Htmpl turn.
  assert (Hpv : process_view (prefix entry) (template entry) view c0 s0 =
            (turn, s_t, match r_t with inr _ => inr (c0 + 1)%nat | inl x => inl x end)).
  { rewrite (process_view_3D _ _ _ _ _ _ _ H3 Hdup), Hren, Htmpl.
    destruct r_t; reflexivity. }
  pose proof (main_through_turn _ _ _ Hpv) as Hm.
  destruct r_t as [x|u]; split; assumption.
Qed.

End Turn.

(** C3. In a run of [main], the turn of every 3D view the host could
    duplicate tries the name on the copy at most 20 times, starting from
    the computed name: attempt number [j] (from 0) uses the computed name
    followed by [j] asterisks, so each refusal adds exactly one, and the
    first accepted attempt is the last, the template step coming right
    after it.  Refused [k] times and then accepted, the copy is given the
    computed name with [k] asterisks: one asterisk when only the first
    attempt is refused. *)
Theorem rename_retries_append_asterisk `{H : Host} (system : string) (entry : SystemEntry)
    (d : Doc) (before : list ViewObj) (view : ViewObj) (after : list ViewObj)
    (e0 : list Event) (s0 : St) (c0 : nat) (i : ElementId) (d1 : Doc) :
  system_mapping !! system = Some entry ->
  for_views (prefix entry) (template entry) before 0%nat
    {| doc := d; tx := Started d |} = (e0, s0, inr c0) ->
  is_View3D view = true ->
  Duplicate (doc s0) (Id view) = inr (i, d1) ->
  let old_name := Name d1 (Id view) in
  let candidate := new_name (prefix entry) old_name in
  let events := fst (fst (main (Some (before ++ view :: after)) (Some system) (initial d))) in
  let accepted (k : nat) (d2 : Doc) (tail : list Event) :=
    EvStart :: e0 ++ EvDuplicate (Id view) (Some i) :: failed_attempts i candidate k ++
      [EvSetName i (candidate +:+ PyStr.stars k) true;
       EvPrint (old_name +:+ " -> " +:+ candidate +:+ PyStr.stars k)] ++
      fst (fst (assign_template i (template entry) (candidate +:+ PyStr.stars k)
                  {| doc := d2; tx := tx s0 |})) ++ tail in
  ((exists tail,
      events =
        EvStart :: e0 ++ EvDuplicate (Id view) (Some i) :: failed_attempts i candidate 20 ++
          fst (fst (assign_template i (template entry) (candidate +:+ PyStr.stars 20)
                      {| doc := d1; tx := tx s0 |})) ++ tail)
   \/ (exists k d2 tail,
         (k < 20)%nat /\
         set_Name d1 i (candidate +:+ PyStr.stars k) = inr d2 /\
         events = accepted k d2 tail))
  /\ (forall (k : nat) (d2 : Doc),
        (k < 20)%nat ->
        (forall j, (j < k)%nat ->
           exists msg, set_Name d1 i (candidate +:+ PyStr.stars j) = inl msg) ->
        set_Name d1 i (candidate +:+ PyStr.stars k) = inr d2 ->
        exists tail, events = accepted k d2 tail).
Proof.
  intros Hsys Hb H3 Hdup old_name candidate events accepted.
  split.
  - destruct (rename_loop_cases i old_name 20 candidate {| doc := d1; tx := tx s0 |})
      as [Hr|(k & d2 & Hk & Hok & Hr)].
    + left. apply (main_events_through_rename system entry d before view after
                     e0 s0 c0 Hsys Hb i d1 H3 Hdup _ _ _ Hr).
    + right. exists k, d2.
      destruct (main_events_through_rename system entry d before view after
                  e0 s0 c0 Hsys Hb i d1 H3 Hdup _ _ _ Hr) as [tail Ht].
      exists tail. split; [exact Hk|]. split; [exact Hok|].
      unfold events, accepted. rewrite Ht, <- !List.app_assoc. reflexivity.
  - intros k d2 Hk Hfail Hok.
    pose proof (rename_loop_success i old_name k 20 candidate d2
                  {| doc := d1; tx := tx s0 |} Hk Hfail Hok) as Hr.
    destruct (main_events_through_rename system entry d before view after
                e0 s0 c0 Hsys Hb i d1 H3 Hdup _ _ _ Hr) as [tail Ht].
    exists tail. unfold events, accepted. rewrite Ht, <- !List.app_assoc. reflexivity.
Qed.

Lemma rename_retries_append_asterisk_witness :
  (exists tail,
     fst (fst (main (Some [ {| Id := 1; Class := View3D |} ]) (Some "Architectural")
                 (RefHost.state RefHost.crowded0 NotStarted))) =
       EvStart :: EvDuplicate 1 (Some 8) :: EvSetName 8 "A_Level 1" false
         :: EvSetName 8 "A_Level 1*" true :: EvPrint "M_Level 1 -> A_Level 1*"
         :: EvPrint "Template 'ARCHITECTURE GLUE' not found for 'A_Level 1*'" :: tail)
  /\ (exists tail,
        fst (fst (main (Some [ {| Id := 1; Class := View3D |} ]) (Some "Architectural")
                    (RefHost.state RefHost.nearly_saturated NotStarted))) =
          EvStart :: EvDuplicate 1 (Some 119) :: failed_attempts 119 "A_Level 1" 19 ++
            [EvSetName 119 "A_Level 1*******************" true;
             EvPrint "M_Level 1 -> A_Level 1*******************";
             EvPrint "Template 'ARCHITECTURE GLUE' not found for 'A_Level 1*******************'"]
            ++ tail).
Proof.
  split.
  - apply (proj2 (rename_retries_append_asterisk (H := RefHost.host) "Architectural"
                    {| prefix := "A_"; template := "ARCHITECTURE GLUE" |}
                    RefHost.crowded0 [] {| Id := 1; Class := View3D |} []
                    [] (RefHost.started RefHost.crowded0 RefHost.crowded0) 0%nat
                    8 RefHost.crowded eq_refl eq_refl eq_refl eq_refl)
             1%nat
             [RefHost.view 1 "M_Level 1"; RefHost.view 7 "A_Level 1";
              RefHost.view 8 "A_Level 1*"]).
    + lia.
    + intros j Hj. assert (j = 0%nat) as -> by lia.
      exists "Name must be unique.". reflexivity.
    + reflexivity.
  - apply (proj2 (rename_retries_append_asterisk (H := RefHost.host) "Architectural"
                    {| prefix := "A_"; template := "ARCHITECTURE GLUE" |}
                    RefHost.nearly_saturated [] {| Id := 1; Class := View3D |} []
                    [] (RefHost.started RefHost.nearly_saturated RefHost.nearly_saturated)
                    0%nat
                    119 (RefHost.nearly_saturated ++ [RefHost.view 119 "M_Level 1 Copy 1"])
                    eq_refl eq_refl eq_refl eq_refl)
             19%nat
             (RefHost.renamed
                (RefHost.nearly_saturated ++ [RefHost.view 119 "M_Level 1 Copy 1"])
                119 "A_Level 1*******************")).
    + lia.
    + intros j Hj.
      do 19 (destruct j as [|j]; [exists "Name must be unique."; vm_compute; reflexivity|]).
      lia.
    + vm_compute. reflexivity.
Defined.

(** C4, as the code has it.  When all 20 attempts are refused, the rename
    loop ends normally and leaves the state as it was after the
    duplication, so the copy still has the name the host gave it, and
    nothing was shown.  The turn goes on with the template step, which is
    outside the inner [try]: when the template is not found, or its
    assignment is accepted, the turn ends normally with the count
    increased and the run continues with the remaining views. *)
Theorem rename_exhausted_is_tolerated `{H : Host} (system : string) (entry : SystemEntry)
    (d : Doc) (before : list ViewObj) (view : ViewObj) (after : list ViewObj)
    (e0 : list Event) (s0 : St) (c0 : nat) (i : ElementId) (d1 : Doc) :
  system_mapping !! system = Some entry ->
  for_views (prefix entry) (template entry) before 0%nat
    {| doc := d; tx := Started d |} = (e0, s0, inr c0) ->
  is_View3D view = true ->
  Duplicate (doc s0) (Id view) = inr (i, d1) ->
  (forall j, (j < 20)%nat ->
     exists msg,
       set_Name d1 i (new_name (prefix entry) (Name d1 (Id view)) +:+ PyStr.stars j)
         = inl msg) ->
  let candidate := new_name (prefix entry) (Name d1 (Id view)) in
  let s1 := {| doc := d1; tx := tx s0 |} in
  let attempts := EvDuplicate (Id view) (Some i) :: failed_attempts i candidate 20 in
  rename_loop 20 i (Name d1 (Id view)) candidate s1 =
    (failed_attempts i candidate 20, s1, inr (candidate +:+ PyStr.stars 20))
  /\ alerts attempts = []
  /\ (find_template d1 (template entry) (OfClass_View d1) = None ->
      let turn :=
        attempts ++
          [EvPrint (template_not_found (template entry) (candidate +:+ PyStr.stars 20))] in
      process_view (prefix entry) (template entry) view c0 s0 =
        (turn, s1, inr (c0 + 1)%nat)
      /\ main (Some (before ++ view :: after)) (Some system) (initial d) =
           close_run d (e0 ++ turn)
             (for_views (prefix entry) (template entry) after (c0 + 1)%nat s1))
  /\ (forall (t : ElementId) (d3 : Doc),
        find_template d1 (template entry) (OfClass_View d1) = Some t ->
        set_ViewTemplateId d1 i t = inr d3 ->
        let turn := attempts ++ [EvSetTemplate i t true] in
        process_view (prefix entry) (template entry) view c0 s0 =
          (turn, {| doc := d3; tx := tx s0 |}, inr (c0 + 1)%nat)
        /\ main (Some (before ++ view :: after)) (Some system) (initial d) =
             close_run d (e0 ++ turn)
               (for_views (prefix entry) (template entry) after (c0 + 1)%nat
                  {| doc := d3; tx := tx s0 |})).
Proof.
  intros Hsys Hb H3 Hdup Hfail candidate s1 attempts.
  assert (Hloop : rename_loop 20 i (Name d1 (Id view)) candidate s1 =
            (failed_attempts i candidate 20, s1, inr (candidate +:+ PyStr.stars 20))).
  { apply rename_loop_exhausted. exact Hfail. }
  split; [exact Hloop|]. split; [apply alerts_failed_attempts|]. split.
  - intros Hnone turn.
    apply (main_through_template system entry d before view after e0 s0 c0 Hsys Hb
             i d1 H3 Hdup _ _ _ _ s1 (inr tt) Hloop).
    rewrite assign_template_cases. simpl doc. rewrite Hnone. reflexivity.
  - intros t d3 Hsome Hset turn.
    apply (main_through_template system entry d before view after e0 s0 c0 Hsys Hb
             i d1 H3 Hdup _ _ _ _ {| doc := d3; tx := tx s0 |} (inr tt) Hloop).
    rewrite assign_template_cases. simpl doc. rewrite Hsome, Hset. reflexivity.
Qed.

Lemma rename_exhausted_is_tolerated_witness :
  match main (Some [ {| Id := 1; Class := View3D |}; {| Id := 2; Class := View3D |} ])
          (Some "Architectural") (RefHost.state RefHost.saturated_roof NotStarted) with
  | (evs, s, r) =>
      RefHost.name (doc s) 120 = "M_Level 1 Copy 1"
      /\ duplicated evs = [1; 2]
      /\ alerts evs = ["2 views duplicated, renamed, and template applied."]
      /\ tx s = Committed
  end.
Proof.
  destruct (rename_exhausted_is_tolerated (H := RefHost.host) "Architectural"
              {| prefix := "A_"; template := "ARCHITECTURE GLUE" |}
              RefHost.saturated_roof [] {| Id := 1; Class := View3D |}
              [ {| Id := 2; Class := View3D |} ]
              [] (RefHost.started RefHost.saturated_roof RefHost.saturated_roof) 0%nat
              120 (RefHost.saturated_roof ++ [RefHost.view 120 "M_Level 1 Copy 1"])
              eq_refl eq_refl eq_refl eq_refl) as (_ & _ & _ & Hw).
  - intros j Hj.
    do 20 (destruct j as [|j]; [exists "Name must be unique."; vm_compute; reflexivity|]).
    lia.
  - destruct (Hw 4 (RefHost.templated
                        (RefHost.saturated_roof ++ [RefHost.view 120 "M_Level 1 Copy 1"])
                        120 4) eq_refl eq_refl) as [_ Hm].
    match type of Hm with
    | ?l = _ => set (run := main _ _ _); change run with l; rewrite Hm
    end.
    vm_compute. repeat split.
Defined.

(** C4 as the claim has it fails: with all 20 attempts refused the turn
    can still raise.  Here the first view named like the template is not
    a template, the host refuses it, the exception leaves the turn, the
    second view is never duplicated and the user is shown the error. *)
Lemma rename_exhausted_can_still_abort :
  let sp := RefHost.saturated_plain in
  let d1 := sp ++ [RefHost.view 120 "M_Level 1 Copy 1"] in
  let refused := "The viewTemplateId is not valid as a view template." in
  RefHost.duplicate sp 1 = inr (120, d1)
  /\ (forall j, (j < 20)%nat ->
        exists msg, RefHost.set_name d1 120 ("A_Level 1" +:+ PyStr.stars j) = inl msg)
  /\ process_view "A_" "ARCHITECTURE GLUE" {| Id := 1; Class := View3D |} 0%nat
        (RefHost.started sp sp) =
      (EvDuplicate 1 (Some 120) :: failed_attempts 120 "A_Level 1" 20 ++
         [EvSetTemplate 120 4 false],
       RefHost.started sp d1, inl (ApiException refused))
  /\ main (Some [ {| Id := 1; Class := View3D |}; {| Id := 2; Class := View3D |} ])
        (Some "Architectural") (RefHost.state sp NotStarted) =
      (EvStart :: EvDuplicate 1 (Some 120) :: failed_attempts 120 "A_Level 1" 20 ++
         [EvSetTemplate 120 4 false; EvRollBack;
          EvAlert ("An error occurred: " +:+ refused)],
       RefHost.state sp RolledBack, inr tt).
Proof.
  cbv zeta. split; [vm_compute; reflexivity|]. split.
  - intros j Hj.
    do 20 (destruct j as [|j]; [exists "Name must be unique."; vm_compute; reflexivity|]).
    lia.
  - split; vm_compute; reflexivity.
Qed.

(** C5. The template is looked for in the document's views, in the
    collector's order, and the first one whose name equals the template
    name (as strings, so case matters) is taken.  In a run of [main], in
    the turn of a 3D view the host could duplicate, after the rename
    loop: when there is such a view, the script assigns its id as the
    copy's [ViewTemplateId], and, the host accepting, the turn ends with
    the count increased and the run continues; when there is none, one
    line is printed, nothing is assigned, the turn ends with the count
    increased and the run continues with the remaining views. *)
Theorem template_lookup_first_exact_match `{H : Host} :
  (forall (d : Doc) (template_name : string) (l : list ElementId) (t : ElementId),
     find_template d template_name l = Some t <->
     exists l1 l2, l = l1 ++ t :: l2 /\ Name d t = template_name /\
                   Forall (fun u => Name d u <> template_name) l1)
  /\ (forall (d : Doc) (template_name : string) (l : list ElementId),
        find_template d template_name l = None <->
        Forall (fun u => Name d u <> template_name) l)
  /\ (forall (system : string) (entry : SystemEntry) (d : Doc)
        (before : list ViewObj) (view : ViewObj) (after : list ViewObj)
        (e0 : list Event) (s0 : St) (c0 : nat) (i : ElementId) (d1 : Doc)
        (evs_r : list Event) (s_r : St) (name : string),
        system_mapping !! system = Some entry ->
        for_views (prefix entry) (template entry) before 0%nat
          {| doc := d; tx := Started d |} = (e0, s0, inr c0) ->
        is_View3D view = true ->
        Duplicate (doc s0) (Id view) = inr (i, d1) ->
        rename_loop 20 i (Name d1 (Id view)) (new_name (prefix entry) (Name d1 (Id view)))
          {| doc := d1; tx := tx s0 |} = (evs_r, s_r, inr name) ->
        let renamed := EvDuplicate (Id view) (Some i) :: evs_r in
        let run := main (Some (before ++ view :: after)) (Some system) (initial d) in
        let turn := process_view (prefix entry) (template entry) view c0 s0 in
        match find_template (doc s_r) (template entry) (OfClass_View (doc s_r)) with
        | Some t =>
            match set_ViewTemplateId (doc s_r) i t with
            | inr d3 =>
                turn = (renamed ++ [EvSetTemplate i t true],
                        {| doc := d3; tx := tx s_r |}, inr (c0 + 1)%nat)
                /\ run = close_run d (e0 ++ renamed ++ [EvSetTemplate i t true])
                           (for_views (prefix entry) (template entry) after (c0 + 1)%nat
                              {| doc := d3; tx := tx s_r |})
            | inl msg =>
                turn = (renamed ++ [EvSetTemplate i t false], s_r, inl (ApiException msg))
                /\ run = close_run d (e0 ++ renamed ++ [EvSetTemplate i t false])
                           ([], s_r, inl (ApiException msg))
            end
        | None =>
            turn = (renamed ++ [EvPrint (template_not_found (template entry) name)],
                    s_r, inr (c0 + 1)%nat)
            /\ run = close_run d
                       (e0 ++ renamed ++ [EvPrint (template_not_found (template entry) name)])
                       (for_views (prefix entry) (template entry) after (c0 + 1)%nat s_r)
        end).
Proof.
  split; [apply find_template_Some|].
  split; [apply find_template_None|].
  intros system entry d before view after e0 s0 c0 i d1 evs_r s_r name
    Hsys Hb H3 Hdup Hren renamed run turn.
  pose proof (assign_template_cases i (template entry) name s_r) as Hc.
  destruct (find_template _ _ _) as [t|].
  - destruct (set_ViewTemplateId (doc s_r) i t) as [msg|d3].
    + apply (main_through_template system entry d before view after e0 s0 c0 Hsys Hb
               i d1 H3 Hdup _ _ _ _ _ (inl (ApiException msg)) Hren Hc).
    + apply (main_through_template system entry d before view after e0 s0 c0 Hsys Hb
               i d1 H3 Hdup _ _ _ _ _ (inr tt) Hren Hc).
  - apply (main_through_template system entry d before view after e0 s0 c0 Hsys Hb
             i d1 H3 Hdup _ _ _ _ _ (inr tt) Hren Hc).
Qed.

Lemma template_lookup_first_exact_match_witness :
  (let run := main (Some RefHost.selection) (Some "Architectural")
                (RefHost.state RefHost.project NotStarted) in
   fst (fst run) =
     [EvStart; EvDuplicate 1 (Some 5); EvSetName 5 "A_Level 1" true;
      EvPrint "M_Level 1 -> A_Level 1"; EvSetTemplate 5 4 true;
      EvDuplicate 2 (Some 6); EvSetName 6 "A_Roof" true; EvPrint "Roof -> A_Roof";
      EvSetTemplate 6 4 true; EvCommit;
      EvAlert "2 views duplicated, renamed, and template applied."]
   /\ RefHost.template_id (doc (snd (fst run))) 5 = 4)
  /\ (let run := main (Some [ {| Id := 1; Class := View3D |}; {| Id := 2; Class := View3D |} ])
                   (Some "Architectural") (RefHost.state RefHost.lowercase NotStarted) in
      fst (fst run) =
        [EvStart; EvDuplicate 1 (Some 5); EvSetName 5 "A_Level 1" true;
         EvPrint "M_Level 1 -> A_Level 1";
         EvPrint "Template 'ARCHITECTURE GLUE' not found for 'A_Level 1'";
         EvDuplicate 2 (Some 6); EvSetName 6 "A_Roof" true; EvPrint "Roof -> A_Roof";
         EvPrint "Template 'ARCHITECTURE GLUE' not found for 'A_Roof'"; EvCommit;
         EvAlert "2 views duplicated, renamed, and template applied."]
      /\ RefHost.template_id (doc (snd (fst run))) 5 = -1).
Proof.
  destruct (template_lookup_first_exact_match (H := RefHost.host)) as (_ & _ & Hw).
  split.
  - pose proof (Hw "Architectural" {| prefix := "A_"; template := "ARCHITECTURE GLUE" |}
                  RefHost.project [] {| Id := 1; Class := View3D |}
                  [ {| Id := 3; Class := ViewPlan |}; {| Id := 2; Class := View3D |} ]
                  [] (RefHost.started RefHost.project RefHost.project) 0%nat
                  5 (RefHost.project ++ [RefHost.view 5 "M_Level 1 Copy 1"])
                  [EvSetName 5 "A_Level 1" true; EvPrint "M_Level 1 -> A_Level 1"]
                  (RefHost.started RefHost.project
                     (RefHost.project ++ [RefHost.view 5 "A_Level 1"]))
                  "A_Level 1" eq_refl eq_refl eq_refl eq_refl eq_refl) as Hm.
    cbv zeta in Hm. vm_compute find_template in Hm. vm_compute set_ViewTemplateId in Hm.
    cbv iota beta in Hm. destruct Hm as [_ Hm].
    cbv zeta.
    match type of Hm with
    | ?l = _ => set (run := main _ _ _); change run with l; rewrite Hm
    end.
    vm_compute. split; reflexivity.
  - pose proof (Hw "Architectural" {| prefix := "A_"; template := "ARCHITECTURE GLUE" |}
                  RefHost.lowercase [] {| Id := 1; Class := View3D |}
                  [ {| Id := 2; Class := View3D |} ]
                  [] (RefHost.started RefHost.lowercase RefHost.lowercase) 0%nat
                  5 (RefHost.lowercase ++ [RefHost.view 5 "M_Level 1 Copy 1"])
                  [EvSetName 5 "A_Level 1" true; EvPrint "M_Level 1 -> A_Level 1"]
                  (RefHost.started RefHost.lowercase
                     (RefHost.lowercase ++ [RefHost.view 5 "A_Level 1"]))
                  "A_Level 1" eq_refl eq_refl eq_refl eq_refl eq_refl) as Hm.
    cbv zeta in Hm. vm_compute find_template in Hm.
    cbv iota beta in Hm. destruct Hm as [_ Hm].
    cbv zeta.
    match type of Hm with
    | ?l = _ => set (run := main _ _ _); change run with l; rewrite Hm
    end.
    vm_compute. split; reflexivity.
Defined.

(** ** Rollback *)

(** C2. When the loop over the selection raises, the exception is a host
    exception with a message; [main] rolls the transaction back, which
    puts the document back as it was when the transaction started, shows
    one dialog whose text ends with that message, and no summary: the loop
    showed no dialog and never committed. *)
Theorem loop_exception_rolls_back `{H : Host} (sel_views : option (list ViewObj))
    (system : option string) (entry : SystemEntry) (d : Doc)
    (evs : list Event) (s : St) (e : Exn) :
  system_mapping !! chosen system = Some entry ->
  for_views (prefix entry) (template entry) (selected sel_views) 0%nat
    {| doc := d; tx := Started d |} = (evs, s, inl e) ->
  exists msg,
    e = ApiException msg
    /\ main sel_views system (initial d) =
         (EvStart :: evs ++ [EvRollBack; EvAlert ("An error occurred: " +:+ msg)],
          {| doc := d; tx := RolledBack |}, inr tt)
    /\ alerts (EvStart :: evs ++ [EvRollBack; EvAlert ("An error occurred: " +:+ msg)]) =
         ["An error occurred: " +:+ msg]
    /\ ~ In EvCommit evs.
Proof.
  intros Hsys Hloop.
  assert (Hsel : selected sel_views <> []).
  { intros E. rewrite E in Hloop. discriminate. }
  pose proof (for_views_props (prefix entry) (template entry) (selected sel_views) 0%nat
                {| doc := d; tx := Started d |}) as Hp.
  rewrite Hloop in Hp. destruct Hp as (Htx & Hev & _ & (msg & ->) & _).
  destruct (loop_event_facts evs Hev) as (Ha & _ & Hc & _).
  exists msg. split; [reflexivity|]. split; [|split; [|exact Hc]].
  - rewrite (main_started _ _ _ _ Hsel Hsys), Hloop. simpl is_Exception. cbv iota.
    unfold tx_RollBack. rewrite Htx. reflexivity.
  - change (EvStart :: evs ++ [EvRollBack; EvAlert ("An error occurred: " +:+ msg)])
      with ([EvStart] ++ evs ++ [EvRollBack; EvAlert ("An error occurred: " +:+ msg)]).
    rewrite !alerts_app, Ha. reflexivity.
Qed.

Lemma loop_exception_rolls_back_witness :
  main (Some (RefHost.selection ++ [ {| Id := 9; Class := View3D |} ]))
       (Some "Architectural") (RefHost.state RefHost.project NotStarted) =
    ([EvStart; EvDuplicate 1 (Some 5); EvSetName 5 "A_Level 1" true;
      EvPrint "M_Level 1 -> A_Level 1"; EvSetTemplate 5 4 true;
      EvDuplicate 2 (Some 6); EvSetName 6 "A_Roof" true;
      EvPrint "Roof -> A_Roof"; EvSetTemplate 6 4 true;
      EvDuplicate 9 None; EvRollBack;
      EvAlert "An error occurred: The referenced object is not valid."],
     RefHost.state RefHost.project RolledBack, inr tt).
Proof.
  destruct (loop_exception_rolls_back (H := RefHost.host)
              (Some (RefHost.selection ++ [ {| Id := 9; Class := View3D |} ]))
              (Some "Architectural")
              {| prefix := "A_"; template := "ARCHITECTURE GLUE" |}
              RefHost.project
              [EvDuplicate 1 (Some 5); EvSetName 5 "A_Level 1" true;
               EvPrint "M_Level 1 -> A_Level 1"; EvSetTemplate 5 4 true;
               EvDuplicate 2 (Some 6); EvSetName 6 "A_Roof" true;
               EvPrint "Roof -> A_Roof"; EvSetTemplate 6 4 true;
               EvDuplicate 9 None]
              (snd (fst (for_views (H := RefHost.host) "A_" "ARCHITECTURE GLUE"
                           (RefHost.selection ++ [ {| Id := 9; Class := View3D |} ]) 0%nat
                           (RefHost.started RefHost.project RefHost.project))))
              (ApiException "The referenced object is not valid."))
    as (msg & Hmsg & Hmain & _).
  - vm_compute. reflexivity.
  - vm_compute. reflexivity.
  - injection Hmsg as <-. exact Hmain.
Defined.

(** ** Which views are processed, and the reported count *)



(** ** The originals are left alone *)

Section Frame.

Context {H : Host} {HF : HostFrame H}.

Lemma originals_kept_refl (d : Doc) : originals_kept d d.
Proof. intros j Hj. auto. Qed.

Lemma originals_kept_step (d0 d d' : Doc) :
  originals_kept d0 d ->
  (forall j, In j (OfClass_View d0) -> In j (OfClass_View d) ->
     In j (OfClass_View d') /\ Name d' j = Name d j
     /\ ViewTemplateId d' j = ViewTemplateId d j) ->
  originals_kept d0 d'.
Proof.
  intros H0 Hstep j Hj. destruct (H0 j Hj) as (Hin & Hn & Ht).
  destruct (Hstep j Hj Hin) as (Hin' & Hn' & Ht'). repeat split; congruence.
Qed.

Lemma rename_loop_frame (d0 : Doc) (i : ElementId) (old_name : string) (n : nat) :
  ~ In i (OfClass_View d0) ->
  forall (candidate : string) (s : St),
    originals_kept d0 (doc s) ->
    originals_kept d0 (doc (snd (fst (rename_loop n i old_name candidate s)))).
Proof.
  intros Hi candidate s H0.
  destruct (rename_loop_cases i old_name n candidate s) as [->|(k & d' & _ & Hok & ->)];
    simpl; [exact H0|].
  apply (originals_kept_step d0 (doc s) d' H0). intros j Hj Hin.
  apply (set_Name_frame _ _ _ _ Hok); [congruence|exact Hin].
Qed.

Lemma assign_template_frame (d0 : Doc) (i : ElementId) (template_name name : string)
    (s : St) :
  ~ In i (OfClass_View d0) ->
  originals_kept d0 (doc s) ->
  originals_kept d0 (doc (snd (fst (assign_template i template_name name s)))).
Proof.
  intros Hi H0. rewrite assign_template_cases.
  destruct (find_template _ _ _) as [t|]; [|exact H0].
  destruct (set_ViewTemplateId (doc s) i t) as [msg|d'] eqn:E; [exact H0|]. simpl.
  apply (originals_kept_step d0 (doc s) d' H0). intros j Hj Hin.
  apply (set_ViewTemplateId_frame _ _ _ _ E); [congruence|exact Hin].
Qed.

Lemma process_view_frame (d0 : Doc) (prefix template_name : string) (view : ViewObj)
    (c : nat) (s : St) :
  originals_kept d0 (doc s) ->
  originals_kept d0 (doc (snd (fst (process_view prefix template_name view c s)))).
Proof.
  intros H0. destruct (is_View3D view) eqn:H3.
  - destruct (Duplicate (doc s) (Id view)) as [msg|[i d1]] eqn:Hdup.
    + rewrite (process_view_not_duplicated _ _ _ _ _ _ H3 Hdup). exact H0.
    + rewrite (process_view_3D _ _ _ _ _ _ _ H3 Hdup).
      assert (Hi : ~ In i (OfClass_View d0)).
      { intros Hin. apply (Duplicate_fresh _ _ _ _ Hdup). apply (H0 i Hin). }
      assert (H1 : originals_kept d0 d1).
      { apply (originals_kept_step d0 (doc s) d1 H0). intros j Hj Hin.
        apply (Duplicate_frame _ _ _ _ Hdup j Hin). }
      pose proof (rename_loop_frame d0 i (Name d1 (Id view)) 20 Hi
                    (new_name prefix (Name d1 (Id view)))
                    {| doc := d1; tx := tx s |} H1) as Hr.
      destruct (rename_loop _ _ _ _ _) as [[evs_r s_r] [e|name]]; [exact Hr|].
      pose proof (assign_template_frame d0 i template_name name s_r Hi Hr) as Ht.
      destruct (assign_template _ _ _ _) as [[evs_t s_t] [e|u]]; exact Ht.
  - rewrite (process_view_skipped _ _ _ _ _ H3). exact H0.
Qed.

Lemma for_views_frame (d0 : Doc) (prefix template_name : string)
    (sel_views : list ViewObj) :
  forall (c : nat) (s : St),
    originals_kept d0 (doc s) ->
    originals_kept d0 (doc (snd (fst (for_views prefix template_name sel_views c s)))).
Proof.
  induction sel_views as [|view rest IH]; intros c s H0; [exact H0|].
  rewrite for_views_cons.
  pose proof (process_view_frame d0 prefix template_name view c s H0) as Hpv.
  destruct (process_view _ _ _ _ _) as [[e1 s1] [x|c']]; [exact Hpv|].
  specialize (IH c' s1 Hpv).
  destruct (for_views _ _ rest _ _) as [[e2 s2] r]. exact IH.
Qed.

End Frame.

(** The reference host keeps these promises. *)
Module RefHostFacts.

Import RefHost.

Lemma lookup_app_l (d l : Document) (j : ElementId) :
  In j (map v_id d) -> lookup (d ++ l) j = lookup d j.
Proof.
  induction d as [|v d IH]; simpl; [intros []|].
  destruct (Z.eqb_spec (v_id v) j); [reflexivity|].
  intros [E|Hin]; [contradiction|]. apply IH, Hin.
Qed.

Lemma ids_below_fresh (d : Document) (j : ElementId) :
  In j (map v_id d) -> j < fresh_id d.
Proof.
  unfold fresh_id. induction d as [|v d IH]; simpl; [intros []|].
  intros [<-|Hin]; [lia|]. specialize (IH Hin). lia.
Qed.

Lemma ids_update (f : View -> View) (i : ElementId) (d : Document) :
  (forall v, v_id (f v) = v_id v) -> map v_id (update f i d) = map v_id d.
Proof.
  intros Hf. unfold update. rewrite map_map. apply map_ext.
  intros v. destruct (v_id v =? i); auto.
Qed.

Lemma lookup_update_ne (f : View -> View) (i j : ElementId) (d : Document) :
  (forall v, v_id (f v) = v_id v) -> j <> i ->
  lookup (update f i d) j = lookup d j.
Proof.
  intros Hf Hne. induction d as [|v d IH]; simpl; [reflexivity|].
  destruct (Z.eqb_spec (v_id v) i) as [E|E].
  - rewrite Hf. destruct (Z.eqb_spec (v_id v) j); [congruence|exact IH].
  - destruct (Z.eqb_spec (v_id v) j); [reflexivity|exact IH].
Qed.

Lemma update_frame (f : View -> View) (i j : ElementId) (d : Document) :
  (forall v, v_id (f v) = v_id v) -> j <> i -> In j (map v_id d) ->
  In j (map v_id (update f i d))
  /\ name (update f i d) j = name d j
  /\ template_id (update f i d) j = template_id d j.
Proof.
  intros Hf Hne Hin. unfold name, template_id.
  rewrite (ids_update f i d Hf), (lookup_update_ne f i j d Hf Hne). auto.
Qed.

#[export] Instance frame : HostFrame host.
Proof.
  split; simpl.
  - intros d v i d'. unfold duplicate. destruct (lookup d v); [|discriminate].
    intros [= <- _] Hin. apply ids_below_fresh in Hin. lia.
  - intros d v i d'. unfold duplicate. destruct (lookup d v); [|discriminate].
    intros [= _ <-] j Hin. unfold name, template_id.
    rewrite map_app, (lookup_app_l _ _ _ Hin).
    split; [apply in_or_app; left; exact Hin|]. auto.
  - intros d i s d'. unfold set_name. destruct (lookup d i); [|discriminate].
    destruct (name_taken d i s); [discriminate|].
    intros [= <-] j Hne Hin. apply update_frame; auto.
  - intros d i t d'. unfold set_template_id.
    destruct (lookup d i); [|discriminate].
    destruct (lookup d t) as [tv|]; [|discriminate].
    destruct (v_is_template tv); [|discriminate].
    intros [= <-] j Hne Hin. apply update_frame; auto.
Qed.

End RefHostFacts.

(** C9. The name and template setters are only ever called on views the
    run itself created by [Duplicate].  So, on a host where a duplicate
    is a new view and a change to one view leaves the others alone,
    every view that was in the document when the run began, the selected
    originals among them, has at the end of the loop, and at the end of
    the run, the name and the view template it began with. *)
Theorem originals_never_modified `{H : Host} {HF : HostFrame H}
    (sel_views : option (list ViewObj)) (system : option string) (d : Doc) :
  (forall (prefix template_name : string) (l : list ViewObj) (c : nat) (s : St),
     incl (modified (fst (fst (for_views prefix template_name l c s))))
          (created (fst (fst (for_views prefix template_name l c s)))))
  /\ (forall (prefix template_name : string) (l : list ViewObj) (c : nat),
        originals_kept d
          (doc (snd (fst (for_views prefix template_name l c
                            {| doc := d; tx := Started d |})))))
  /\ originals_kept d (doc (snd (fst (main sel_views system (initial d))))).
Proof.
  assert (Hloop : forall prefix template_name l c,
            originals_kept d
              (doc (snd (fst (for_views prefix template_name l c
                                {| doc := d; tx := Started d |}))))).
  { intros. apply for_views_frame, originals_kept_refl. }
  split.
  { intros prefix template_name l c s.
    pose proof (for_views_props prefix template_name l c s) as Hp.
    destruct (for_views _ _ _ _ _) as [[evs s'] r]. apply Hp. }
  split; [exact Hloop|].
  destruct (selected sel_views) as [|v l] eqn:Esel.
  { rewrite (main_no_views sel_views system d Esel).
    apply originals_kept_refl. }
  assert (Hsel : selected sel_views <> []) by congruence.
  destruct (chosen system) as [|a sy] eqn:Esys.
  { rewrite (main_no_system sel_views system d Hsel Esys).
    apply originals_kept_refl. }
  destruct (system_mapping !! chosen system) as [entry|] eqn:Hsys.
  - rewrite (main_started sel_views system entry d Hsel Hsys).
    specialize (Hloop (prefix entry) (template entry) (selected sel_views) 0%nat).
    pose proof (for_views_props (prefix entry) (template entry) (selected sel_views) 0%nat
                  {| doc := d; tx := Started d |}) as Hp.
    destruct (for_views _ _ _ _ _) as [[evs s] [e|n]]; simpl in Hloop; [|exact Hloop].
    destruct Hp as (Htx & _). simpl in Htx.
    destruct (is_Exception e); [|exact Hloop].
    unfold tx_RollBack. rewrite Htx. apply originals_kept_refl.
  - unfold main, lookup_system. rewrite Esel, Esys. rewrite Esys in Hsys. rewrite Hsys.
    apply originals_kept_refl.
Qed.

Lemma originals_never_modified_witness :
  match main (Some RefHost.selection) (Some "Architectural")
          (RefHost.state RefHost.project NotStarted) with
  | (_, s, _) =>
      RefHost.name (doc s) 1 = "M_Level 1" /\ RefHost.template_id (doc s) 1 = -1
      /\ RefHost.name (doc s) 5 = "A_Level 1" /\ RefHost.template_id (doc s) 5 = 4
  end.
Proof.
  destruct (proj2 (proj2
              (originals_never_modified (H := RefHost.host) (HF := RefHostFacts.frame)
                 (Some RefHost.selection) (Some "Architectural") RefHost.project))
              1 ltac:(left; reflexivity)) as (_ & Hn & Ht).
  set (run := main _ _ _) in *. vm_compute in run. subst run.
  cbv beta iota in Hn, Ht |- *.
  split; [exact Hn|]. split; [exact Ht|]. split; reflexivity.
Defined.

(** * Further properties of [main] *)

(** ** Every way a run can go *)

Lemma main_cases `{H : Host} (sel_views : option (list ViewObj))
    (system : option string) (d : Doc) :
  (selected sel_views = [] /\
   main sel_views system (initial d) =
     ([EvAlert "No Views Selected"], initial d, inl SystemExit))
  \/ (selected sel_views <> [] /\ chosen system = EmptyString /\
      main sel_views system (initial d) =
        ([EvAlert "No system selected"], initial d, inl SystemExit))
  \/ (selected sel_views <> [] /\ chosen system <> EmptyString /\
      system_mapping !! chosen system = None /\
      main sel_views system (initial d) =
        ([], initial d, inl (KeyError (chosen system))))
  \/ (exists entry evs s n,
        system_mapping !! chosen system = Some entry /\
        for_views (prefix entry) (template entry) (selected sel_views) 0%nat
          {| doc := d; tx := Started d |} = (evs, s, inr n) /\
        main sel_views system (initial d) =
          (EvStart :: evs ++ [EvCommit; EvAlert (summary n)],
           {| doc := doc s; tx := Committed |}, inr tt))
  \/ (exists entry evs s msg,
        system_mapping !! chosen system = Some entry /\
        for_views (prefix entry) (template entry) (selected sel_views) 0%nat
          {| doc := d; tx := Started d |} = (evs, s, inl (ApiException msg)) /\
        main sel_views system (initial d) =
          (EvStart :: evs ++ [EvRollBack; EvAlert ("An error occurred: " +:+ msg)],
           {| doc := d; tx := RolledBack |}, inr tt)).
Proof.
  destruct (selected sel_views) as [|v l] eqn:Esel.
  { left. split; [reflexivity|]. apply main_no_views, Esel. }
  assert (Hsel : selected sel_views <> []) by congruence.
  right.
  destruct (chosen system) as [|a sy] eqn:Esys.
  { left. split; [discriminate|]. split; [reflexivity|].
    apply main_no_system; assumption. }
  right.
  destruct (system_mapping !! String a sy) as [entry|] eqn:Hsys.
  - right. rewrite <- Esys in Hsys.
    pose proof (main_started sel_views system entry d Hsel Hsys) as Hm.
    pose proof (for_views_props (prefix entry) (template entry) (selected sel_views) 0%nat
                  {| doc := d; tx := Started d |}) as Hp.
    rewrite Esel in Hm, Hp.
    destruct (for_views _ _ (v :: l) _ _) as [[evs s] [e|n]] eqn:Eloop.
    + right. destruct Hp as (Htx & _ & _ & (msg & ->) & _). simpl in Htx.
      exists entry, evs, s, msg.
      split; [reflexivity|]. split; [exact Eloop|].
      rewrite Hm. simpl is_Exception. cbv iota. unfold tx_RollBack. rewrite Htx.
      reflexivity.
    + left. exists entry, evs, s, n.
      split; [reflexivity|]. split; [exact Eloop|]. exact Hm.
  - left. split; [discriminate|]. split; [discriminate|]. split; [reflexivity|].
    unfold main, lookup_system. rewrite Esel, Esys, Hsys. reflexivity.
Qed.

(** X1. A run of [main] goes one of five ways and no other: it exits on
    the first alert, exits on the second, dies on the table lookup
    before anything is shown or started, commits and shows the summary,
    or rolls back to the starting document and shows the error.  Once
    started the transaction is always closed, between [Start] and its
    end only duplications, setter calls and prints happen, and exactly
    one dialog follows. *)
Theorem main_run_shapes `{H : Host} (sel_views : option (list ViewObj))
    (system : option string) (d : Doc) :
  (selected sel_views = [] /\
   main sel_views system (initial d) =
     ([EvAlert "No Views Selected"], initial d, inl SystemExit))
  \/ (selected sel_views <> [] /\ chosen system = EmptyString /\
      main sel_views system (initial d) =
        ([EvAlert "No system selected"], initial d, inl SystemExit))
  \/ (selected sel_views <> [] /\ chosen system <> EmptyString /\
      system_mapping !! chosen system = None /\
      main sel_views system (initial d) =
        ([], initial d, inl (KeyError (chosen system))))
  \/ (exists evs d' n,
        Forall loop_event evs /\
        main sel_views system (initial d) =
          (EvStart :: evs ++ [EvCommit; EvAlert (summary n)],
           {| doc := d'; tx := Committed |}, inr tt))
  \/ (exists evs msg,
        Forall loop_event evs /\
        main sel_views system (initial d) =
          (EvStart :: evs ++ [EvRollBack; EvAlert ("An error occurred: " +:+ msg)],
           {| doc := d; tx := RolledBack |}, inr tt)).
Proof.
  destruct (main_cases sel_views system d)
    as [Ha|[Hb|[Hc|[(entry & evs & s & n & _ & Hloop & Hm)
                   |(entry & evs & s & msg & _ & Hloop & Hm)]]]].
  - left. exact Ha.
  - right; left. exact Hb.
  - right; right; left. exact Hc.
  - right; right; right; left. exists evs, (doc s), n. split; [|exact Hm].
    pose proof (for_views_props (prefix entry) (template entry) (selected sel_views) 0%nat
                  {| doc := d; tx := Started d |}) as Hp.
    rewrite Hloop in Hp. apply Hp.
  - right; right; right; right. exists evs, msg. split; [|exact Hm].
    pose proof (for_views_props (prefix entry) (template entry) (selected sel_views) 0%nat
                  {| doc := d; tx := Started d |}) as Hp.
    rewrite Hloop in Hp. apply Hp.
Qed.

(** ** What can stop the loop *)

Lemma process_view_raises `{H : Host} (prefix template_name : string) (view : ViewObj)
    (c : nat) (s : St) (evs : list Event) (s' : St) (e : Exn) :
  process_view prefix template_name view c s = (evs, s', inl e) ->
  exists evs' msg,
    e = ApiException msg /\
    ((exists v, evs = evs' ++ [EvDuplicate v None] /\ Duplicate (doc s') v = inl msg)
     \/ (exists i t, evs = evs' ++ [EvSetTemplate i t false] /\
                     set_ViewTemplateId (doc s') i t = inl msg)).
Proof.
  destruct (is_View3D view) eqn:H3.
  - destruct (Duplicate (doc s) (Id view)) as [msg|[i d1]] eqn:Hdup.
    + rewrite (process_view_not_duplicated _ _ _ _ _ _ H3 Hdup).
      intros [= <- <- <-]. exists [], msg. split; [reflexivity|].
      left. exists (Id view). auto.
    + rewrite (process_view_3D _ _ _ _ _ _ _ H3 Hdup).
      pose proof (rename_loop_on_copy i (Name d1 (Id view))
                    (new_name prefix (Name d1 (Id view))) 20
                    {| doc := d1; tx := tx s |}) as Hr.
      destruct (rename_loop _ _ _ _ _) as [[evs_r s_r] r].
      destruct Hr as (_ & _ & name & ->).
      rewrite assign_template_cases.
      destruct (find_template _ _ _) as [t|]; [|discriminate].
      destruct (set_ViewTemplateId (doc s_r) i t) as [msg|d2] eqn:E; [|discriminate].
      intros [= <- <- <-].
      exists (EvDuplicate (Id view) (Some i) :: evs_r), msg. split; [reflexivity|].
      right. exists i, t. auto.
  - rewrite (process_view_skipped _ _ _ _ _ H3). discriminate.
Qed.

(** X2. The loop over the selection can only be stopped by a failed
    [Duplicate] or by a refused template assignment, never by a refused
    rename: when it raises, the last thing it did is that host call, made
    on the document the loop leaves, and the exception carries that
    call's message. *)
Theorem loop_stops_only_at_duplicate_or_template `{H : Host}
    (prefix template_name : string) (sel_views : list ViewObj) :
  forall (c : nat) (s : St) (evs : list Event) (s' : St) (e : Exn),
    for_views prefix template_name sel_views c s = (evs, s', inl e) ->
    exists evs' msg,
      e = ApiException msg /\
      ((exists v, evs = evs' ++ [EvDuplicate v None] /\ Duplicate (doc s') v = inl msg)
       \/ (exists i t, evs = evs' ++ [EvSetTemplate i t false] /\
                       set_ViewTemplateId (doc s') i t = inl msg)).
Proof.
  induction sel_views as [|view rest IH]; intros c s evs s' e; [discriminate|].
  rewrite for_views_cons.
  destruct (process_view _ _ _ _ _) as [[e1 s1] [x|c']] eqn:Epv.
  - intros [= <- <- <-]. apply (process_view_raises _ _ _ _ _ _ _ _ Epv).
  - destruct (for_views _ _ rest _ _) as [[e2 s2] r] eqn:Erest.
    intros [= <- <- ->].
    destruct (IH _ _ _ _ _ Erest) as (evs' & msg & -> & Hlast).
    exists (e1 ++ evs'), msg. split; [reflexivity|].
    destruct Hlast as [(v & -> & Hv)|(i & t & -> & Ht)].
    + left. exists v. rewrite app_assoc. auto.
    + right. exists i, t. rewrite app_assoc. auto.
Qed.

Lemma loop_stops_only_at_duplicate_or_template_witness :
  exists evs' msg,
    ApiException "The viewTemplateId is not valid as a view template." = ApiException msg
    /\ ((exists v, [EvDuplicate 1 (Some 5); EvSetName 5 "A_Level 1" true;
                    EvPrint "M_Level 1 -> A_Level 1"; EvSetTemplate 5 4 false]
                   = evs' ++ [EvDuplicate v None]
                   /\ RefHost.duplicate
                        (RefHost.plain ++ [RefHost.view 5 "A_Level 1"]) v = inl msg)
        \/ (exists i t, [EvDuplicate 1 (Some 5); EvSetName 5 "A_Level 1" true;
                         EvPrint "M_Level 1 -> A_Level 1"; EvSetTemplate 5 4 false]
                        = evs' ++ [EvSetTemplate i t false]
                        /\ RefHost.set_template_id
                             (RefHost.plain ++ [RefHost.view 5 "A_Level 1"]) i t = inl msg)).
Proof.
  apply (loop_stops_only_at_duplicate_or_template (H := RefHost.host)
           "A_" "ARCHITECTURE GLUE"
           [ {| Id := 1; Class := View3D |}; {| Id := 2; Class := View3D |} ] 0%nat
           (RefHost.started RefHost.plain RefHost.plain)
           [EvDuplicate 1 (Some 5); EvSetName 5 "A_Level 1" true;
            EvPrint "M_Level 1 -> A_Level 1"; EvSetTemplate 5 4 false]
           (RefHost.started RefHost.plain (RefHost.plain ++ [RefHost.view 5 "A_Level 1"]))).
  vm_compute. reflexivity.
Defined.

(** ** How many rename attempts a run makes *)

Lemma set_name_calls_app (a b : list Event) :
  set_name_calls (a ++ b) = (set_name_calls a + set_name_calls b)%nat.
Proof. unfold set_name_calls. rewrite List.filter_app, List.length_app. reflexivity. Qed.

Lemma set_name_calls_failed_attempts (i : ElementId) (candidate : string) (k : nat) :
  set_name_calls (failed_attempts i candidate k) = k.
Proof.
  unfold set_name_calls, failed_attempts.
  transitivity (length (seq 0 k)); [|apply List.length_seq].
  induction (seq 0 k) as [|j l IH]; simpl; [reflexivity|]. rewrite IH. reflexivity.
Qed.

Lemma set_name_calls_cons_other (e : Event) (evs : list Event) :
  match e with EvSetName _ _ _ => False | _ => True end ->
  set_name_calls (e :: evs) = set_name_calls evs.
Proof. destruct e; simpl; intros He; try contradiction; reflexivity. Qed.

Lemma rename_loop_set_name_calls `{H : Host} (i : ElementId) (old_name candidate : string)
    (n : nat) (s : St) :
  (set_name_calls (fst (fst (rename_loop n i old_name candidate s))) <= n)%nat.
Proof.
  destruct (rename_loop_cases i old_name n candidate s) as [->|(k & d' & Hk & _ & ->)];
    cbn [fst].
  - rewrite set_name_calls_failed_attempts. lia.
  - rewrite set_name_calls_app, set_name_calls_failed_attempts.
    change (set_name_calls [EvSetName i (candidate +:+ PyStr.stars k) true;
                            EvPrint (old_name +:+ " -> " +:+ candidate +:+ PyStr.stars k)])
      with 1%nat.
    lia.
Qed.

Lemma assign_template_set_name_calls `{H : Host} (i : ElementId)
    (template_name name : string) (s : St) :
  set_name_calls (fst (fst (assign_template i template_name name s))) = 0%nat.
Proof.
  rewrite assign_template_cases.
  destruct (find_template _ _ _); [destruct (set_ViewTemplateId _ _ _)|]; reflexivity.
Qed.

Lemma process_view_set_name_calls `{H : Host} (prefix template_name : string)
    (view : ViewObj) (c : nat) (s : St) :
  (set_name_calls (fst (fst (process_view prefix template_name view c s)))
   <= if is_View3D view then 20 else 0)%nat.
Proof.
  destruct (is_View3D view) eqn:H3.
  - destruct (Duplicate (doc s) (Id view)) as [msg|[i d1]] eqn:Hdup.
    + rewrite (process_view_not_duplicated _ _ _ _ _ _ H3 Hdup).
      unfold set_name_calls. simpl. lia.
    + rewrite (process_view_3D _ _ _ _ _ _ _ H3 Hdup).
      pose proof (rename_loop_set_name_calls i (Name d1 (Id view))
                    (new_name prefix (Name d1 (Id view))) 20
                    {| doc := d1; tx := tx s |}) as Hr.
      destruct (rename_loop _ _ _ _ _) as [[evs_r s_r] [e|name]]; cbn [fst] in Hr.
      * cbn [fst]. rewrite set_name_calls_cons_other by exact I. exact Hr.
      * pose proof (assign_template_set_name_calls i template_name name s_r) as Ht.
        destruct (assign_template _ _ _ _) as [[evs_t s_t] [e|u]]; cbn [fst] in Ht |- *;
          rewrite set_name_calls_cons_other by exact I;
          rewrite set_name_calls_app, Ht; lia.
  - rewrite (process_view_skipped _ _ _ _ _ H3). unfold set_name_calls. simpl. lia.
Qed.

Lemma for_views_set_name_calls `{H : Host} (prefix template_name : string)
    (sel_views : list ViewObj) :
  forall (c : nat) (s : St),
    (set_name_calls (fst (fst (for_views prefix template_name sel_views c s)))
     <= 20 * length (List.filter is_View3D sel_views))%nat.
Proof.
  induction sel_views as [|view rest IH]; intros c s; [unfold set_name_calls; simpl; lia|].
  rewrite for_views_cons.
  pose proof (process_view_set_name_calls prefix template_name view c s) as Hpv.
  destruct (process_view _ _ _ _ _) as [[e1 s1] [x|c']]; simpl in Hpv.
  - simpl List.filter. destruct (is_View3D view); simpl in *; lia.
  - specialize (IH c' s1).
    destruct (for_views _ _ rest _ _) as [[e2 s2] r]. simpl in IH |- *.
    rewrite set_name_calls_app.
    destruct (is_View3D view); simpl length; lia.
Qed.

(** X3. Whatever the host answers, a run calls the name setter at most
    20 times for each 3D view of the selection. *)
Theorem rename_attempts_bounded `{H : Host} (sel_views : option (list ViewObj))
    (system : option string) (d : Doc) :
  (set_name_calls (fst (fst (main sel_views system (initial d))))
   <= 20 * length (List.filter is_View3D (selected sel_views)))%nat.
Proof.
  destruct (main_cases sel_views system d)
    as [(_ & ->)|[(_ & _ & ->)|[(_ & _ & _ & ->)
       |[(entry & evs & s & n & _ & Hloop & ->)
        |(entry & evs & s & msg & _ & Hloop & ->)]]]];
    try (unfold set_name_calls; simpl; lia).
  - pose proof (for_views_set_name_calls (prefix entry) (template entry)
                  (selected sel_views) 0%nat {| doc := d; tx := Started d |}) as Hb.
    rewrite Hloop in Hb. simpl in Hb. simpl fst.
    change (EvStart :: evs ++ [EvCommit; EvAlert (summary n)])
      with ([EvStart] ++ evs ++ [EvCommit; EvAlert (summary n)]).
    rewrite !set_name_calls_app.
    change (set_name_calls [EvStart]) with 0%nat.
    change (set_name_calls [EvCommit; EvAlert (summary n)]) with 0%nat. lia.
  - pose proof (for_views_set_name_calls (prefix entry) (template entry)
                  (selected sel_views) 0%nat {| doc := d; tx := Started d |}) as Hb.
    rewrite Hloop in Hb. simpl in Hb. simpl fst.
    change (EvStart :: evs ++ [EvRollBack; EvAlert ("An error occurred: " +:+ msg)])
      with ([EvStart] ++ evs ++ [EvRollBack; EvAlert ("An error occurred: " +:+ msg)]).
    rewrite !set_name_calls_app.
    change (set_name_calls [EvStart]) with 0%nat.
    change (set_name_calls [EvRollBack; EvAlert ("An error occurred: " +:+ msg)])
      with 0%nat. lia.
Qed.

(** ** Names and the table *)

Lemma contains_app (c : ascii) (a b : string) :
  PyStr.contains c (a +:+ b) = PyStr.contains c a || PyStr.contains c b.
Proof.
  induction a as [|x a IH]; [reflexivity|].
  rewrite app_cons. simpl. rewrite IH. apply orb_assoc.
Qed.

Lemma contains_stars (k : nat) : PyStr.contains "_" (PyStr.stars k) = false.
Proof. induction k as [|k IH]; [reflexivity|]. simpl. exact IH. Qed.

(** The name is the prefix put before a part of the old name that does
    not depend on the prefix. *)
Lemma new_name_prefix (prefix old_name : string) :
  new_name prefix old_name = prefix +:+ new_name EmptyString old_name.
Proof.
  unfold new_name. destruct (negb (PyStr.find "_" old_name =? -1)); reflexivity.
Qed.

(** Every prefix of the table ends with its only underscore, and no
    template name of the table has one. *)
Lemma table_entry_shape (system : string) (entry : SystemEntry) :
  system_mapping !! system = Some entry ->
  (exists stem, prefix entry = stem +:+ "_" /\ PyStr.contains "_" stem = false)
  /\ PyStr.contains "_" (template entry) = false.
Proof.
  intros Hin. unfold system_mapping in Hin. apply elem_of_list_to_map_2 in Hin.
  repeat (apply elem_of_cons in Hin as [Hin|Hin]).
  - injection Hin as _ ->. split; [exists "A"; split|]; reflexivity.
  - injection Hin as _ ->. split; [exists "MD"; split|]; reflexivity.
  - injection Hin as _ ->. split; [exists "PL"; split|]; reflexivity.
  - injection Hin as _ ->. split; [exists "FP"; split|]; reflexivity.
  - injection Hin as _ ->. split; [exists "EE"; split|]; reflexivity.
  - apply elem_of_nil in Hin. contradiction.
Qed.

(** X4. Running the naming rule on a name the script produced earlier,
    asterisks included, replaces the old discipline's prefix by the new
    one: the result is what the rule gives on the first source name,
    followed by the same asterisks.  With the same discipline the
    computed name is the earlier name again. *)
Theorem new_name_replaces_table_prefix (system : string) (entry : SystemEntry)
    (prefix2 old_name : string) (k : nat) :
  system_mapping !! system = Some entry ->
  new_name prefix2 (new_name (prefix entry) old_name +:+ PyStr.stars k) =
    new_name prefix2 old_name +:+ PyStr.stars k.
Proof.
  intros Hin. destruct (table_entry_shape system entry Hin) as ((stem & Hp & Hstem) & _).
  rewrite (new_name_prefix (prefix entry)), (new_name_prefix prefix2 old_name), Hp.
  rewrite !app_assoc_str. apply new_name_split, Hstem.
Qed.

Lemma new_name_replaces_table_prefix_witness :
  new_name "A_" ("MD_Level 1" +:+ "**") = "A_Level 1**".
Proof.
  apply (new_name_replaces_table_prefix "Mechanical"
           {| prefix := "MD_"; template := "MECHANICAL GLUE" |} "A_" "X_Level 1" 2).
  vm_compute. reflexivity.
Defined.

(** X5. No name the script computes for a copy, with any number of
    asterisks, is the template name of a discipline of the table: the
    template lookup cannot take a copy the script named for the
    template. *)
Theorem computed_name_is_no_table_template (system1 system2 : string)
    (entry1 entry2 : SystemEntry) (old_name : string) (k : nat) :
  system_mapping !! system1 = Some entry1 ->
  system_mapping !! system2 = Some entry2 ->
  String.eqb (new_name (prefix entry1) old_name +:+ PyStr.stars k) (template entry2) = false.
Proof.
  intros H1 H2.
  destruct (table_entry_shape system1 entry1 H1) as ((stem & Hp & _) & _).
  destruct (table_entry_shape system2 entry2 H2) as (_ & Ht).
  apply String.eqb_neq. intros Heq.
  apply (f_equal (PyStr.contains "_")) in Heq.
  rewrite Ht, new_name_prefix, Hp, !contains_app in Heq.
  change (PyStr.contains "_" "_") with true in Heq.
  rewrite orb_true_r in Heq. discriminate.
Qed.

Lemma computed_name_is_no_table_template_witness :
  String.eqb (new_name "A_" "ARCHITECTURE GLUE" +:+ PyStr.stars 0) "ARCHITECTURE GLUE" = false.
Proof.
  apply (computed_name_is_no_table_template "Architectural" "Architectural"
           {| prefix := "A_"; template := "ARCHITECTURE GLUE" |}
           {| prefix := "A_"; template := "ARCHITECTURE GLUE" |}
           "ARCHITECTURE GLUE" 0); vm_compute; reflexivity.
Defined.

(** ** Copies made and the number reported *)




(** ** Copies are new views *)

Section Fresh.

Context {H : Host} {HF : HostFrame H}.

Lemma process_view_created_fresh (d0 : Doc) (prefix template_name : string)
    (view : ViewObj) (c : nat) (s : St) :
  originals_kept d0 (doc s) ->
  Forall (fun i => ~ In i (OfClass_View d0))
    (created (fst (fst (process_view prefix template_name view c s)))).
Proof.
  intros H0. destruct (is_View3D view) eqn:H3.
  - destruct (Duplicate (doc s) (Id view)) as [msg|[i d1]] eqn:Hdup.
    + rewrite (process_view_not_duplicated _ _ _ _ _ _ H3 Hdup). constructor.
    + assert (Hi : ~ In i (OfClass_View d0)).
      { intros Hin. apply (Duplicate_fresh _ _ _ _ Hdup). apply (H0 i Hin). }
      rewrite (process_view_3D _ _ _ _ _ _ _ H3 Hdup).
      pose proof (rename_loop_on_copy i (Name d1 (Id view))
                    (new_name prefix (Name d1 (Id view))) 20
                    {| doc := d1; tx := tx s |}) as Hr.
      destruct (rename_loop _ _ _ _ _) as [[evs_r s_r] r].
      destruct Hr as (Hr & _ & name & ->).
      destruct (on_copy_facts i evs_r Hr) as (_ & _ & Fr & _).
      pose proof (assign_template_on_copy i template_name name s_r) as Ht.
      destruct (assign_template _ _ _ _) as [[evs_t s_t] rt].
      destruct Ht as (Ht & _).
      destruct (on_copy_facts i evs_t Ht) as (_ & _ & Ft & _).
      assert (Hc : created (EvDuplicate (Id view) (Some i) :: evs_r ++ evs_t) = [i]).
      { change (EvDuplicate (Id view) (Some i) :: evs_r ++ evs_t)
          with ([EvDuplicate (Id view) (Some i)] ++ evs_r ++ evs_t).
        rewrite !created_app, Fr, Ft. reflexivity. }
      destruct rt as [e|u]; cbn [fst]; rewrite Hc; repeat constructor; exact Hi.
  - rewrite (process_view_skipped _ _ _ _ _ H3). constructor.
Qed.

Lemma for_views_created_fresh (d0 : Doc) (prefix template_name : string)
    (sel_views : list ViewObj) :
  forall (c : nat) (s : St),
    originals_kept d0 (doc s) ->
    Forall (fun i => ~ In i (OfClass_View d0))
      (created (fst (fst (for_views prefix template_name sel_views c s)))).
Proof.
  induction sel_views as [|view rest IH]; intros c s H0; [constructor|].
  rewrite for_views_cons.
  pose proof (process_view_created_fresh d0 prefix template_name view c s H0) as Hpv.
  pose proof (process_view_frame d0 prefix template_name view c s H0) as Hfr.
  destruct (process_view _ _ _ _ _) as [[e1 s1] [x|c']]; cbn [fst snd] in Hpv, Hfr.
  - exact Hpv.
  - specialize (IH c' s1 Hfr).
    destruct (for_views _ _ rest _ _) as [[e2 s2] r]. cbn [fst] in IH |- *.
    rewrite created_app. apply Forall_app. auto.
Qed.

End Fresh.

(** X8. On a host where a duplicate is a new view and a change to one
    view leaves the others alone, none of the copies a run creates is a
    view that was in the document when the run began. *)
Theorem copies_are_new_views `{H : Host} {HF : HostFrame H}
    (sel_views : option (list ViewObj)) (system : option string) (d : Doc) :
  Forall (fun i => ~ In i (OfClass_View d))
    (created (fst (fst (main sel_views system (initial d))))).
Proof.
  destruct (main_cases sel_views system d)
    as [(_ & ->)|[(_ & _ & ->)|[(_ & _ & _ & ->)
       |[(entry & evs & s & n & _ & Hloop & ->)
        |(entry & evs & s & msg & _ & Hloop & ->)]]]];
    cbn [fst]; try (repeat constructor; fail).
  - pose proof (for_views_created_fresh d (prefix entry) (template entry)
                  (selected sel_views) 0%nat {| doc := d; tx := Started d |}
                  (originals_kept_refl d)) as Hf.
    rewrite Hloop in Hf. cbn [fst] in Hf.
    change (EvStart :: evs ++ [EvCommit; EvAlert (summary n)])
      with ([EvStart] ++ evs ++ [EvCommit; EvAlert (summary n)]).
    rewrite !created_app. simpl. rewrite app_nil_r. exact Hf.
  - pose proof (for_views_created_fresh d (prefix entry) (template entry)
                  (selected sel_views) 0%nat {| doc := d; tx := Started d |}
                  (originals_kept_refl d)) as Hf.
    rewrite Hloop in Hf. cbn [fst] in Hf.
    change (EvStart :: evs ++ [EvRollBack; EvAlert ("An error occurred: " +:+ msg)])
      with ([EvStart] ++ evs ++ [EvRollBack; EvAlert ("An error occurred: " +:+ msg)]).
    rewrite !created_app. simpl. rewrite app_nil_r. exact Hf.
Qed.

Lemma copies_are_new_views_witness :
  Forall (fun i => ~ In i (map RefHost.v_id RefHost.project))
    (created (fst (fst (main (Some RefHost.selection) (Some "Architectural")
                          (RefHost.state RefHost.project NotStarted))))).
Proof.
  exact (copies_are_new_views (H := RefHost.host) (HF := RefHostFacts.frame)
           (Some RefHost.selection) (Some "Architectural") RefHost.project).
Defined.
